(** * react-timeseries-charts: LineChart and LabelAxis

    A shallow embedding of [src/LineChart.tsx] (the [LineChart] component)
    and of the [LabelAxis] component that accompanies it, with the
    properties the specification states about them.

    Conventions of the embedding.
    - A JavaScript number is a [number]: NaN, the two infinities, or a
      finite value held as an exact rational (doubles are idealised: no
      rounding, no negative zero).
    - An optional prop is an [option]; [None] is [undefined].
    - An exception is the [Throw] case of [result].
    - Objects compared with [!==] carry an identity.
    - Everything imported from another module (lodash's merge, d3's line
      and format, pondjs' TimeSeries.is, ./style, ./curve, ./util) is a
      field of [Collaborators]. *)

From Stdlib Require Import ZArith QArith Qround Bool List String Lia Lqa.
Import ListNotations.
Local Open Scope string_scope.
Local Open Scope list_scope.
Local Open Scope Z_scope.

Set Implicit Arguments.

(* ================================================================== *)
(** * JavaScript values *)

Module Js.

Inductive number : Type :=
| NaN
| Infinity (negative : bool)
| Finite (q : Q).

#[warnings="-register-all"]
Inductive value : Type :=
| JUndefined
| JNull
| JBool (b : bool)
| JNum (n : number)
| JStr (s : string)
| JArr (items : list value)
| JObj (fields : list (string * value)).

Definition num (z : Z) : number := Finite (inject_Z z).

(** ToBoolean. *)
Definition truthy (v : value) : bool :=
  match v with
  | JUndefined | JNull => false
  | JBool b => b
  | JNum NaN => false
  | JNum (Infinity _) => true
  | JNum (Finite q) => negb (Qeq_bool q 0)
  | JStr s => negb (String.eqb s "")
  | JArr _ | JObj _ => true
  end.

Definition truthy_str (s : option string) : bool :=
  match s with
  | Some s => negb (String.eqb s "")
  | None => false
  end.

Definition truthy_bool (b : option bool) : bool :=
  match b with
  | Some b => b
  | None => false
  end.

(** [a === b] on optional strings. *)
Definition str_strict_eq (a b : option string) : bool :=
  match a, b with
  | Some x, Some y => String.eqb x y
  | None, None => true
  | _, _ => false
  end.

(** ToNumber of an optional numeric prop. *)
Definition toNumber (n : option number) : number :=
  match n with
  | Some n => n
  | None => NaN
  end.

Definition of_optnum (n : option number) : value :=
  match n with
  | Some n => JNum n
  | None => JUndefined
  end.

(** ** Arithmetic *)

Definition num_add (a b : number) : number :=
  match a, b with
  | NaN, _ | _, NaN => NaN
  | Infinity s, Infinity t => if Bool.eqb s t then Infinity s else NaN
  | Infinity s, Finite _ | Finite _, Infinity s => Infinity s
  | Finite x, Finite y => Finite (x + y)
  end.

Definition num_sub (a b : number) : number :=
  match a, b with
  | NaN, _ | _, NaN => NaN
  | Infinity s, Infinity t => if Bool.eqb s t then NaN else Infinity s
  | Infinity s, Finite _ => Infinity s
  | Finite _, Infinity s => Infinity (negb s)
  | Finite x, Finite y => Finite (x - y)
  end.

Definition Qneg_bool (q : Q) : bool := negb (Qle_bool 0 q).

Definition num_div (a b : number) : number :=
  match a, b with
  | NaN, _ | _, NaN => NaN
  | Infinity _, Infinity _ => NaN
  | Infinity s, Finite y => Infinity (xorb s (Qneg_bool y))
  | Finite _, Infinity _ => Finite 0
  | Finite x, Finite y =>
      if Qeq_bool y 0
      then (if Qeq_bool x 0 then NaN else Infinity (Qneg_bool x))
      else Finite (x / y)
  end.

(** [Math.round]: the nearest integer, halves towards +Infinity. *)
Definition Math_round (a : number) : number :=
  match a with
  | Finite q => num (Qfloor (q + (1 # 2)))
  | other => other
  end.

Definition Math_max (a b : number) : number :=
  match a, b with
  | NaN, _ | _, NaN => NaN
  | Infinity false, _ | _, Infinity false => Infinity false
  | Infinity true, other | other, Infinity true => other
  | Finite x, Finite y => if Qle_bool x y then Finite y else Finite x
  end.

(** ** Exceptions *)

Inductive error : Type :=
| TypeError.

Inductive result (A : Type) : Type :=
| Ok (a : A)
| Throw (e : error).

Arguments Ok {A} a.
Arguments Throw {A} e.

Definition bind {A B} (m : result A) (k : A -> result B) : result B :=
  match m with
  | Ok a => k a
  | Throw e => Throw e
  end.

(** ** Property access *)

Fixpoint assoc (k : string) (fields : list (string * value)) : value :=
  match fields with
  | [] => JUndefined
  | (k', v) :: rest => if String.eqb k k' then v else assoc k rest
  end.

(** [v[k]]: reading a property of [undefined] or [null] is a TypeError; an
    object yields its own property or [undefined]; a primitive has no own
    property.  Members inherited from the built-in prototypes are not
    modelled (none is called line, normal, highlighted, selected or
    muted, the names read below). *)
Definition get_prop (v : value) (k : string) : result value :=
  match v with
  | JUndefined | JNull => Throw TypeError
  | JObj fields => Ok (assoc k fields)
  | _ => Ok JUndefined
  end.

(** [o.k = v] on the property list of an object. *)
Fixpoint set_field (k : string) (v : value) (fields : list (string * value))
  : list (string * value) :=
  match fields with
  | [] => [(k, v)]
  | (k', v') :: rest =>
      if String.eqb k k' then (k', v) :: rest
      else (k', v') :: set_field k v rest
  end.

End Js.

Import Js.

Declare Scope js_scope.
Delimit Scope js_scope with js.
Notation "x <- m ;; k" := (bind m (fun x => k))
  (at level 61, m at next level, right associativity) : js_scope.
Local Open Scope js_scope.

(** Monadic traversals: [xs.map(f)] and [xs.forEach(step)] when the
    callback can throw. *)
Fixpoint mapM {A B} (f : A -> result B) (xs : list A) : result (list B) :=
  match xs with
  | [] => Ok []
  | x :: rest =>
      y <- f x ;;
      ys <- mapM f rest ;;
      Ok (y :: ys)
  end.

Fixpoint foldM {S A} (step : S -> A -> result S) (s : S) (xs : list A)
  : result S :=
  match xs with
  | [] => Ok s
  | x :: rest =>
      s' <- step s x ;;
      foldM step s' rest
  end.

(* ================================================================== *)
(** * React elements *)

Module React.

(** What a pointer-event handler does when it is invoked. *)
Inductive Effect : Type :=
| StopPropagation
| Invoke (callback : nat) (argument : value).

Inductive PropValue : Type :=
| PVal (v : value)
| PHandler (effects : list Effect).

#[warnings="-register-all"]
Inductive node : Type :=
| Elem (tag : string) (key : option value)
       (attrs : list (string * PropValue)) (children : list node)
| TextNode (text : string)
| NullNode.

End React.

Import React.

(* ================================================================== *)
(** * LineChart *)

Module LineChart.

(** ** Data *)

(** A pondjs event: [begin().getTime()], [end().getTime()] in
    milliseconds and [get(column)]. *)
Record Event : Type := {
  begin_getTime : Z;
  end_getTime : Z;
  get : string -> value
}.

Record TimeSeries : Type := {
  eventList : list Event
}.

Definition size (s : TimeSeries) : nat := List.length (eventList s).

(** A d3 scale: a function object, compared by identity. *)
Record Scale (A : Type) : Type := {
  scale_id : nat;
  scale_apply : A -> number
}.

Record StringArray : Type := {
  array_id : nat;
  items : list string
}.

Definition ref_strict_eq (a b : option StringArray) : bool :=
  match a, b with
  | Some x, Some y => Nat.eqb (array_id x) (array_id y)
  | None, None => true
  | _, _ => false
  end.

(** The three shapes of the [style] prop.  An object is given by its
    property access [o[k]], the members it inherits from its prototypes
    included: a [Styler] by the object its [lineChartStyle()] returns, a
    plain mapping by itself, and a function, which is an object too, by
    its members beside the code it runs. *)
Inductive StyleProp : Type :=
| StyleStyler (lineChartStyle : string -> value)
| StyleObject (mapping : string -> value)
| StyleFunction (members : string -> value) (fn : string -> value).

Definition instanceof_Styler (s : StyleProp) : bool :=
  match s with
  | StyleStyler _ => true
  | _ => false
  end.

(** lodash's [_.isObject]: true of objects and of functions. *)
Definition isObject (s : StyleProp) : bool :=
  match s with
  | StyleStyler _ | StyleObject _ | StyleFunction _ _ => true
  end.

Definition style_index (s : StyleProp) (column : string) : value :=
  match s with
  | StyleStyler m | StyleObject m | StyleFunction m _ => m column
  end.

Definition style_call (s : StyleProp) (column : string) : result value :=
  match s with
  | StyleFunction _ fn => Ok (fn column)
  | _ => Throw TypeError
  end.

Inductive StyleState : Type :=
| Normal
| Highlighted
| Selected
| Muted.

(** [defaultLineChartChannelStyle.line] of ./style. *)
Record ElementStyle : Type := {
  normal : value;
  highlighted : value;
  selected : value;
  muted : value
}.

Record Point : Type := {
  x : Z;
  y : value
}.

Definition PointData : Type := list Point.

(** [ChartProps] (./Charts) supplies [width], [timeScale] and [yScale];
    the width is the pixel width of the chart, a finite number. *)
Record LineChartProps : Type := {
  width : Q;
  timeScale : Scale Z;
  yScale : Scale value;
  series : TimeSeries;
  axis : string;
  columns : option StringArray;
  style : option StyleProp;
  interpolation : option string;
  breakLine : option bool;
  selection : option string;
  onSelectionChange : option nat;
  highlight : option string;
  onHighlightChange : option nat;
  visible : option bool
}.

(** What the component imports. *)
Record Collaborators : Type := {
  (** [line().curve(curves[i]).x(fx).y(fy)(data)] of d3-shape and ./curve,
      as a function of [i] and of the coordinates [fx] and [fy] yield; it
      throws when [curves[i]] is no curve. *)
  d3_line : option string -> list (number * number) -> result value;
  (** [curveLinear], the default interpolation, is a curve of the table. *)
  d3_line_linear :
    forall coordinates,
      exists path, d3_line (Some "curveLinear") coordinates = Ok path;
  (** [_.merge(object, source1, source2)]; the result is an object, given
      by its properties. *)
  lodash_merge : value -> value -> value -> list (string * value);
  defaultStyle_line : ElementStyle;
  scaleAsString : Scale Z -> string;
  TimeSeries_is : TimeSeries -> TimeSeries -> bool
}.

(** ** defaultProps *)

Definition default_columns : StringArray :=
  {| array_id := 0; items := ["value"] |}.

Definition orDefault {A} (given : option A) (default : A) : option A :=
  match given with
  | Some a => Some a
  | None => Some default
  end.

Definition withDefaults (p : LineChartProps) : LineChartProps :=
  {| width := width p;
     timeScale := timeScale p;
     yScale := yScale p;
     series := series p;
     axis := axis p;
     columns := orDefault (columns p) default_columns;
     style := style p;
     interpolation := orDefault (interpolation p) "curveLinear";
     breakLine := orDefault (breakLine p) true;
     selection := selection p;
     onSelectionChange := onSelectionChange p;
     highlight := highlight p;
     onHighlightChange := onHighlightChange p;
     visible := orDefault (visible p) true |}.

Definition set_breakLine (b : option bool) (p : LineChartProps)
  : LineChartProps :=
  {| width := width p;
     timeScale := timeScale p;
     yScale := yScale p;
     series := series p;
     axis := axis p;
     columns := columns p;
     style := style p;
     interpolation := interpolation p;
     breakLine := b;
     selection := selection p;
     onSelectionChange := onSelectionChange p;
     highlight := highlight p;
     onHighlightChange := onHighlightChange p;
     visible := visible p |}.

Definition set_visible (v : option bool) (p : LineChartProps)
  : LineChartProps :=
  {| width := width p;
     timeScale := timeScale p;
     yScale := yScale p;
     series := series p;
     axis := axis p;
     columns := columns p;
     style := style p;
     interpolation := interpolation p;
     breakLine := breakLine p;
     selection := selection p;
     onSelectionChange := onSelectionChange p;
     highlight := highlight p;
     onHighlightChange := onHighlightChange p;
     visible := v |}.

(** ** lodash predicates on a column value *)

Definition isNull (v : value) : bool :=
  match v with
  | JNull => true
  | _ => false
  end.

Definition isNaN (v : value) : bool :=
  match v with
  | JNum NaN => true
  | _ => false
  end.

Definition isFinite (v : value) : bool :=
  match v with
  | JNum (Finite _) => true
  | _ => false
  end.

(** [new Date(t)] keeps the integral part of [t]. *)
Definition Date_new (t : Q) : Z :=
  if Qle_bool 0 t then Qfloor t else Qceiling t.

Section Component.

Variable ext : Collaborators.

(** ** shouldComponentUpdate *)

Definition shouldComponentUpdate (props nextProps : LineChartProps) : bool :=
  let newSeries := series nextProps in
  let oldSeries := series props in
  let width' := width nextProps in
  let timeScale' := timeScale nextProps in
  let yScale' := yScale nextProps in
  let interpolation' := interpolation nextProps in
  let highlight' := highlight nextProps in
  let selection' := selection nextProps in
  let columns' := columns nextProps in
  let widthChanged := negb (Qeq_bool (width props) width') in
  let timeScaleChanged :=
    negb (String.eqb (scaleAsString ext (timeScale props))
                     (scaleAsString ext timeScale')) in
  let yAxisScaleChanged :=
    negb (Nat.eqb (scale_id (yScale props)) (scale_id yScale')) in
  let interpolationChanged :=
    negb (str_strict_eq (interpolation props) interpolation') in
  let highlightChanged := negb (str_strict_eq (highlight props) highlight') in
  let selectionChanged := negb (str_strict_eq (selection props) selection') in
  let columnsChanged := negb (ref_strict_eq (columns props) columns') in
  let seriesChanged :=
    if negb (Nat.eqb (size oldSeries) (size newSeries)) then true
    else negb (TimeSeries_is ext oldSeries newSeries) in
  widthChanged || seriesChanged || timeScaleChanged || yAxisScaleChanged
  || interpolationChanged || highlightChanged || selectionChanged
  || columnsChanged.

Variable props : LineChartProps.

(** ** Pointer handlers *)

Definition handleHover (column : string) : list Effect :=
  match onHighlightChange props with
  | Some callback => [Invoke callback (JStr column)]
  | None => []
  end.

Definition handleHoverLeave : list Effect :=
  match onHighlightChange props with
  | Some callback => [Invoke callback JNull]
  | None => []
  end.

Definition handleClick (column : string) : list Effect :=
  StopPropagation ::
  match onSelectionChange props with
  | Some callback => [Invoke callback (JStr column)]
  | None => []
  end.

(** ** Styles *)

Definition providedPathStyleMap (column : string) : result value :=
  match style props with
  | Some st =>
      if instanceof_Styler st then Ok (style_index st column)
      else if isObject st then Ok (style_index st column)
      else style_call st column
  | None => Ok JUndefined
  end.

(** [s.k ? s.k : {}] *)
Definition overrides (s : value) (k : string) : result value :=
  o <- get_prop s k ;;
  Ok (if truthy o then o else JObj []).

Definition pathStyle (element column : string) : result value :=
  let isHighlighted :=
    truthy_str (highlight props)
    && str_strict_eq (Some column) (highlight props) in
  let isSelected :=
    truthy_str (selection props)
    && str_strict_eq (Some column) (selection props) in
  styleMap <- providedPathStyleMap column ;;
  let d := defaultStyle_line ext in
  e <- get_prop styleMap element ;;
  let s := if truthy e then e else styleMap in
  style <-
    (if truthy_str (selection props) then
       if isSelected then
         o <- overrides s "selected" ;;
         Ok (lodash_merge ext (JBool true) (selected d) o)
       else if isHighlighted then
         o <- overrides s "highlighted" ;;
         Ok (lodash_merge ext (JBool true) (highlighted d) o)
       else
         o <- overrides s "muted" ;;
         Ok (lodash_merge ext (JBool true) (muted d) o)
     else if isHighlighted then
       o <- overrides s "highlighted" ;;
       Ok (lodash_merge ext (JBool true) (highlighted d) o)
     else
       o <- overrides s "normal" ;;
       Ok (lodash_merge ext (JBool true) (normal d) o)) ;;
  Ok (JObj (set_field "pointerEvents" (JStr "none") style)).

(** ** Paths *)

Definition hitStyle : value :=
  JObj [("stroke", JStr "white");
        ("fill", JStr "none");
        ("opacity", JNum (num 0));
        ("strokeWidth", JNum (num 7));
        ("cursor", JStr "crosshair");
        ("pointerEvents", JStr "stroke")].

Definition renderPath (data : PointData) (column : string) (key : Z)
  : result node :=
  path <-
    d3_line ext (interpolation props)
      (map (fun d => (scale_apply (timeScale props) (x d),
                      scale_apply (yScale props) (y d))) data) ;;
  style <- pathStyle "line" column ;;
  Ok (Elem "g" (Some (JNum (num key))) []
        [Elem "path" None [("d", PVal path); ("style", PVal style)] [];
         Elem "path" None
           [("d", PVal path);
            ("style", PVal hitStyle);
            ("onClick", PHandler (handleClick column));
            ("onMouseLeave", PHandler handleHoverLeave);
            ("onMouseMove", PHandler (handleHover column))] []]).

(** ** Lines *)

Definition timestamp (d : Event) : Z :=
  Date_new (inject_Z (begin_getTime d)
            + (inject_Z (end_getTime d) - inject_Z (begin_getTime d)) / 2)%Q.

Definition badPoint (value : value) : bool :=
  isNull value || isNaN value || negb (isFinite value).

(** The variables the [forEach] callback of the breaking branch closes
    over. *)
Record Loop : Type := {
  pathLines : list node;
  count : Z;
  currentPoints : option PointData
}.

Definition breakStep (column : string) (st : Loop) (d : Event) : result Loop :=
  let timestamp := timestamp d in
  let value := get d column in
  let badPoint := badPoint value in
  if negb badPoint then
    let current :=
      match currentPoints st with
      | Some points => points
      | None => []
      end in
    Ok {| pathLines := pathLines st;
          count := count st;
          currentPoints := Some (current ++ [{| x := timestamp; y := value |}]) |}
  else
    match currentPoints st with
    | Some points =>
        if (1 <? Z.of_nat (List.length points))%Z then
          path <- renderPath points column (count st) ;;
          Ok {| pathLines := pathLines st ++ [path];
                count := count st + 1;
                currentPoints := None |}
        else
          Ok {| pathLines := pathLines st;
                count := count st;
                currentPoints := None |}
    | None => Ok st
    end.

Definition cleanStep (column : string) (cleanedPoints : PointData) (d : Event)
  : PointData :=
  let timestamp := timestamp d in
  let value := get d column in
  let badPoint := badPoint value in
  if negb badPoint then cleanedPoints ++ [{| x := timestamp; y := value |}]
  else cleanedPoints.

Definition renderLine (column : string) : result node :=
  pathLines <-
    (if truthy_bool (breakLine props) then
       st <- foldM (breakStep column)
               {| pathLines := []; count := 1; currentPoints := None |}
               (eventList (series props)) ;;
       match currentPoints st with
       | Some points =>
           if (1 <? Z.of_nat (List.length points))%Z then
             path <- renderPath points column (count st) ;;
             Ok (pathLines st ++ [path])
           else Ok (pathLines st)
       | None => Ok (pathLines st)
       end
     else
       let cleanedPoints :=
         fold_left (cleanStep column) (eventList (series props)) [] in
       path <- renderPath cleanedPoints column 1 ;;
       Ok [path]) ;;
  Ok (Elem "g" (Some (JStr column)) [] pathLines).

Definition renderLines : result (list node) :=
  mapM renderLine
    (match columns props with
     | Some array => items array
     | None => []
     end).

Definition render : result node :=
  lines <- renderLines ;;
  Ok (Elem "g" None [] lines).

End Component.

End LineChart.

(* ================================================================== *)
(** * LabelAxis *)

Module LabelAxis.

Record LabelAxisProps : Type := {
  label : string;
  hideScale : option bool;
  (** [undefined], [null] or an array of [{label, value}] objects *)
  values : value;
  valWidth : option number;
  max : number;
  min : number;
  format : option string;
  width : option number;
  height : option number
}.

Record Collaborators : Type := {
  (** [format(specifier)(n)] of d3-format *)
  d3_format : option string -> number -> string;
  (** the digits of a number inside a template string *)
  Number_toString : number -> string
}.

Definition withDefaults (p : LabelAxisProps) : LabelAxisProps :=
  {| label := label p;
     hideScale :=
       match hideScale p with
       | Some b => Some b
       | None => Some false
       end;
     values :=
       match values p with
       | JUndefined => JArr []
       | given => given
       end;
     valWidth :=
       match valWidth p with
       | Some w => Some w
       | None => Some (num 40)
       end;
     max := max p;
     min := min p;
     format :=
       match format p with
       | Some f => Some f
       | None => Some ".2f"
       end;
     width := width p;
     height := height p |}.

Section Component.

Variable ext : Collaborators.
Variable props : LabelAxisProps.

Definition renderAxis : node :=
  let valueWidth := toNumber (valWidth props) in
  let rectWidth := num_sub (toNumber (width props)) valueWidth in
  let style :=
    JObj [("fontSize", JNum (num 11));
          ("textAnchor", JStr "start");
          ("fill", JStr "#bdbdbd")] in
  if truthy_bool (hideScale props) then Elem "g" None [] []
  else
    let valXPos := num_add rectWidth (num 3) in
    let fmt := format props in
    let maxStr := d3_format ext fmt (max props) in
    let minStr := d3_format ext fmt (min props) in
    Elem "g" None []
      [Elem "text" None
         [("x", PVal (JNum valXPos));
          ("y", PVal (JNum (num 0)));
          ("dy", PVal (JStr "1.2em"));
          ("style", PVal style)]
         [TextNode maxStr];
       Elem "text" None
         [("x", PVal (JNum valXPos));
          ("y", PVal (of_optnum (height props)));
          ("style", PVal style)]
         [TextNode minStr]].

Definition render : node :=
  let textStyle :=
    JObj [("fontSize", JNum (num 12));
          ("textAnchor", JStr "middle");
          ("fill", JStr "#838383")] in
  let valueWidth := toNumber (valWidth props) in
  let rectWidth := num_sub (toNumber (width props)) valueWidth in
  let '(valueList, labelYPos) :=
    if truthy (values props) then
      let labelYPos :=
        Math_max (Math_round (num_div (toNumber (height props)) (num 4)))
                 (num 10) in
      let style :=
        JObj [("text", textStyle);
              ("box", JObj [("fill", JStr "none"); ("stroke", JStr "none")])] in
      (Elem "ValueList" None
         [("style", PVal style);
          ("values", PVal (values props));
          ("width", PVal (JNum rectWidth))] [],
       labelYPos)
    else
      (NullNode, Math_round (num_div (toNumber (height props)) (num 2))) in
  Elem "g" None []
    [Elem "rect" None
       [("x", PVal (JStr "0"));
        ("y", PVal (JStr "0"));
        ("width", PVal (JNum rectWidth));
        ("height", PVal (of_optnum (height props)));
        ("style", PVal (JObj [("fill", JStr "none"); ("stroke", JStr "none")]))]
       [];
     Elem "text" None
       [("x", PVal (JNum (Math_round (num_div rectWidth (num 2)))));
        ("y", PVal (JNum labelYPos));
        ("style", PVal textStyle)]
       [TextNode (label props)];
     Elem "g" None
       [("transform",
         PVal (JStr (String.append "translate(0,"
                       (String.append
                          (Number_toString ext (num_add labelYPos (num 2)))
                          ")"))))]
       [valueList];
     renderAxis].

End Component.

End LabelAxis.

(* ================================================================== *)
(** * Reading a rendered tree *)

Module Tree.

Fixpoint attr (name : string) (attrs : list (string * PropValue))
  : option PropValue :=
  match attrs with
  | [] => None
  | (k, v) :: rest => if String.eqb name k then Some v else attr name rest
  end.

Definition children (n : node) : list node :=
  match n with
  | Elem _ _ _ cs => cs
  | _ => []
  end.

Definition attribute (name : string) (n : node) : option PropValue :=
  match n with
  | Elem _ _ attrs _ => attr name attrs
  | _ => None
  end.

(** The [<text>] elements of a tree, in document order. *)
Fixpoint textElements (n : node) : list node :=
  match n with
  | Elem tag _ _ cs =>
      (if String.eqb tag "text" then [n] else []) ++ flat_map textElements cs
  | _ => []
  end.

(** The [y] of the title of a LabelAxis: its second child. *)
Definition titleY (n : node) : option PropValue :=
  match children n with
  | _ :: title :: _ => attribute "y" title
  | _ => None
  end.

End Tree.

(* ================================================================== *)
(** * The specification's words *)

Module Spec.

Import LineChart.

(** ** Segmentation (section 4.1) *)

(** "A point is bad if its value is null, NaN, or non-finite": only a
    finite number is good. *)
Definition good (column : string) (d : Event) : bool :=
  match get d column with
  | JNum (Finite _) => true
  | _ => false
  end.

(** "x = interval midpoint, y = the column's value" *)
Definition point (column : string) (d : Event) : Point :=
  {| x := timestamp d; y := get d column |}.

(** The runs of consecutive good points, one run between any two
    neighbouring bad points (and before the first, and after the last);
    a run may be empty. *)
Fixpoint runs (column : string) (events : list Event) : list PointData :=
  match events with
  | [] => [[]]
  | d :: rest =>
      if good column d then
        match runs column rest with
        | run :: others => (point column d :: run) :: others
        | [] => [[point column d]]
        end
      else [] :: runs column rest
  end.

Definition drawable (segment : PointData) : bool :=
  (2 <=? List.length segment)%nat.

Definition goodPoints (column : string) (events : list Event) : PointData :=
  map (point column) (filter (good column) events).

Definition segments (breakLine : bool) (column : string)
  (events : list Event) : list PointData :=
  if breakLine then filter drawable (runs column events)
  else [goodPoints column events].

(** The run that is still open is put in front of the runs to come. *)
Definition prepend (open : PointData) (rs : list PointData) : list PointData :=
  match rs with
  | run :: others => (open ++ run) :: others
  | [] => [open]
  end.

Definition openRun (current : option PointData) : PointData :=
  match current with
  | Some points => points
  | None => []
  end.

(** Each segment becomes one path, keyed 1, 2, ... in order. *)
Fixpoint emit (ext : Collaborators) (props : LineChartProps)
  (column : string) (key : Z) (segs : list PointData) : result (list node) :=
  match segs with
  | [] => Ok []
  | segment :: rest =>
      path <- renderPath ext props segment column key ;;
      paths <- emit ext props column (key + 1) rest ;;
      Ok (path :: paths)
  end.

Definition drawn (ext : Collaborators) (props : LineChartProps)
  (column : string) (segs : list PointData) : result node :=
  paths <- emit ext props column 1 segs ;;
  Ok (Elem "g" (Some (JStr column)) [] paths).

(** ** Style precedence (section 3) *)

(** [c] names [column]. *)
Definition names (c : option string) (column : string) : bool :=
  truthy_str c && str_strict_eq (Some column) c.

(** When a state is a candidate for a column: selected for the selected
    column, highlighted for the highlighted one, muted as soon as a
    selection exists, normal always. *)
Definition applies (selection highlight : option string) (column : string)
  (st : StyleState) : bool :=
  match st with
  | Selected => names selection column
  | Highlighted => names highlight column
  | Muted => truthy_str selection
  | Normal => true
  end.

(** "selected > highlighted > muted > normal" *)
Definition precedence : list StyleState :=
  [Selected; Highlighted; Muted; Normal].

Definition resolve (selection highlight : option string) (column : string)
  : StyleState :=
  match find (applies selection highlight column) precedence with
  | Some st => st
  | None => Normal
  end.

Definition defaults (d : ElementStyle) (st : StyleState) : value :=
  match st with
  | Normal => normal d
  | Highlighted => highlighted d
  | Selected => selected d
  | Muted => muted d
  end.

Definition stateName (st : StyleState) : string :=
  match st with
  | Normal => "normal"
  | Highlighted => "highlighted"
  | Selected => "selected"
  | Muted => "muted"
  end.

(** "select the sub-bundle keyed by element if present else treat the
    whole source as the bundle" *)
Definition channel (styleMap : value) (element : string) : result value :=
  e <- get_prop styleMap element ;;
  Ok (if truthy e then e else styleMap).

(** The style of a state: its overrides merged onto the built-in default
    for that state, pointer events forced off. *)
Definition styled (ext : Collaborators) (st : StyleState) (s : value)
  : result value :=
  o <- overrides s (stateName st) ;;
  Ok (JObj (set_field "pointerEvents" (JStr "none")
              (lodash_merge ext (JBool true)
                 (defaults (defaultStyle_line ext) st) o))).

Definition resolved (ext : Collaborators) (props : LineChartProps)
  (element column : string) (st : StyleState) : result value :=
  styleMap <- providedPathStyleMap props column ;;
  s <- channel styleMap element ;;
  styled ext st s.

(** The precedence as the testable property of section 8 words it: with a
    selection, the selected column is selected and "any other column
    resolves to muted even if it equals highlight". *)
Definition resolve_section8 (selection highlight : option string)
  (column : string) : StyleState :=
  if truthy_str selection then
    if names selection column then Selected else Muted
  else if names highlight column then Highlighted else Normal.

(** ** Title position of the label axis (section 4.2) *)

(** Auxiliary values are given when the list holds at least one. *)
Definition valuesGiven (values : value) : bool :=
  match values with
  | JArr (_ :: _) => true
  | _ => false
  end.

Definition titlePosition (height : option number) (values : value) : number :=
  if valuesGiven values
  then Math_max (Math_round (num_div (toNumber height) (num 4))) (num 10)
  else Math_round (num_div (toNumber height) (num 2)).

End Spec.

(* ================================================================== *)
(** * Sample inputs *)

Module Sample.

Import LineChart.

Definition fields (v : value) : list (string * value) :=
  match v with
  | JObj fs => fs
  | _ => []
  end.

(** The curves of the table. *)
Definition curveNames : list string :=
  ["curveLinear"; "curveBasis"; "curveCardinal"; "curveStep";
   "curveStepAfter"; "curveStepBefore"; "curveMonotoneX"; "curveNatural";
   "curveCatmullRom"].

Definition isCurve (interpolation : option string) : bool :=
  match interpolation with
  | Some name => existsb (String.eqb name) curveNames
  | None => false
  end.

Definition ext : Collaborators :=
  {| d3_line := fun interpolation coordinates =>
       if isCurve interpolation then
         Ok match coordinates with
            | [] => JNull
            | _ =>
                JArr (map (fun c => JArr [JNum (fst c); JNum (snd c)])
                        coordinates)
            end
       else Throw TypeError;
     d3_line_linear := fun coordinates => ex_intro _ _ eq_refl;
     lodash_merge := fun _ a b =>
       fold_left (fun acc kv => set_field (fst kv) (snd kv) acc)
                 (fields b) (fields a);
     defaultStyle_line :=
       {| normal := JObj [("stroke", JStr "steelblue")];
          highlighted := JObj [("stroke", JStr "#5a98cb")];
          selected := JObj [("stroke", JStr "steelblue"); ("strokeWidth", JNum (num 2))];
          muted := JObj [("stroke", JStr "steelblue"); ("opacity", JNum (Finite (4 # 10)))] |};
     scaleAsString := fun scale => "0,1000-0,300";
     TimeSeries_is := fun a b => Nat.eqb (size a) (size b) |}.

Definition event (t : Z) (v : value) : Event :=
  {| begin_getTime := t * 1000;
     end_getTime := t * 1000 + 1000;
     get := fun column =>
       if String.eqb column "value" || String.eqb column "other" then v
       else JUndefined |}.

Definition n (z : Z) : value := JNum (num z).

(** [1, 2, bad, 4, 5] *)
Definition series_12b45 : TimeSeries :=
  {| eventList := [event 0 (n 1); event 1 (n 2); event 2 JNull;
                   event 3 (n 4); event 4 (n 5)] |}.

(** [1, bad, 2, bad] *)
Definition series_1b2b : TimeSeries :=
  {| eventList := [event 0 (n 1); event 1 (JNum NaN); event 2 (n 2);
                   event 3 (JNum (Infinity false))] |}.

Definition series_empty : TimeSeries := {| eventList := [] |}.

(** [1, 2, 3] *)
Definition series_123 : TimeSeries :=
  {| eventList := [event 0 (n 1); event 1 (n 2); event 2 (n 3)] |}.

(** A member every object inherits, a function; it has none of the
    properties read from a style. *)
Definition builtin : value := JObj [].

Definition objectPrototype : list string :=
  ["constructor"; "hasOwnProperty"; "isPrototypeOf"; "propertyIsEnumerable";
   "toLocaleString"; "toString"; "valueOf"; "__proto__";
   "__defineGetter__"; "__defineSetter__"; "__lookupGetter__";
   "__lookupSetter__"].

Definition functionPrototype : list string :=
  ["apply"; "bind"; "call"; "arguments"; "caller"; "length"; "name"].

Definition has (k : string) (own : list (string * value)) : bool :=
  existsb (fun kv => String.eqb k (fst kv)) own.

(** [o[k]] for an object literal with the properties [own]. *)
Definition object (own : list (string * value)) (k : string) : value :=
  if has k own then assoc k own
  else if existsb (String.eqb k) objectPrototype then builtin
  else JUndefined.

(** [f[k]] for a function with the properties [own] added to it. *)
Definition function (own : list (string * value)) (k : string) : value :=
  if has k own then assoc k own
  else if existsb (String.eqb k) (functionPrototype ++ objectPrototype)
  then builtin
  else JUndefined.

Definition lineStyle : StyleProp :=
  StyleObject
    (object
       [("value",
         JObj [("line", JObj [("normal", JObj [("stroke", JStr "red")])])]);
        ("a", JObj [("normal", JObj [("stroke", JStr "green")])]);
        ("b", JObj [])]).

Definition chart (s : TimeSeries) (breakLine : option bool)
  (selection highlight : option string) : LineChartProps :=
  {| width := 600;
     timeScale := {| scale_id := 1; scale_apply := fun t => num (t / 10) |};
     yScale :=
       {| scale_id := 2;
          scale_apply := fun v => match v with JNum y => y | _ => NaN end |};
     series := s;
     axis := "y";
     columns := Some {| array_id := 3; items := ["value"; "other"] |};
     style := Some lineStyle;
     interpolation := Some "curveLinear";
     breakLine := breakLine;
     selection := selection;
     onSelectionChange := Some 4%nat;
     highlight := highlight;
     onHighlightChange := None;
     visible := Some true |}.

(** The same chart with every untracked prop changed. *)
Definition otherwise (p : LineChartProps) : LineChartProps :=
  {| width := width p;
     timeScale := timeScale p;
     yScale := yScale p;
     series := series p;
     axis := "other axis";
     columns := columns p;
     style := None;
     interpolation := interpolation p;
     breakLine := Some false;
     selection := selection p;
     onSelectionChange := None;
     highlight := highlight p;
     onHighlightChange := Some 9%nat;
     visible := Some false |}.

Definition axisExt : LabelAxis.Collaborators :=
  {| LabelAxis.d3_format := fun _ v =>
       match v with
       | Finite q => if Qeq_bool q 0 then "0.00" else "100.46"
       | _ => "NaN"
       end;
     LabelAxis.Number_toString := fun v =>
       match v with
       | Finite q => if Qeq_bool q 27 then "27" else "52"
       | _ => "NaN"
       end |}.

Definition labelAxis (values : value) (hideScale : option bool)
  : LabelAxis.LabelAxisProps :=
  {| LabelAxis.label := "Speed";
     LabelAxis.hideScale := hideScale;
     LabelAxis.values := values;
     LabelAxis.valWidth := Some (num 40);
     LabelAxis.max := Finite (100456 # 1000);
     LabelAxis.min := num 0;
     LabelAxis.format := Some ".2f";
     LabelAxis.width := Some (num 140);
     LabelAxis.height := Some (num 100) |}.

End Sample.

(* ================================================================== *)
(** * Observations on values and trees *)

Module Observe.

Import LineChart.

(** [undefined] and [null], the two values no property can be read of. *)
Definition nullish (v : value) : bool :=
  match v with
  | JUndefined | JNull => true
  | _ => false
  end.

Definition key_of (n : node) : option value :=
  match n with
  | Elem _ key _ _ => key
  | _ => None
  end.

(** The keys [k], [k + 1], ... of [n] siblings. *)
Definition counted (k n : nat) : list (option value) :=
  map (fun i => Some (JNum (num (Z.of_nat i)))) (seq k n).

(** The pixel coordinates the two accessors of [renderPath] yield. *)
Definition coordinates (props : LineChartProps) (data : PointData)
  : list (number * number) :=
  map (fun d => (scale_apply (timeScale props) (x d),
                 scale_apply (yScale props) (y d))) data.

Definition columnList (props : LineChartProps) : list string :=
  match columns props with
  | Some array => items array
  | None => []
  end.

(** A chart styled by a function that returns a complete style for every
    column. *)
Definition styledByFunction (p : LineChartProps) : LineChartProps :=
  {| width := width p;
     timeScale := timeScale p;
     yScale := yScale p;
     series := series p;
     axis := axis p;
     columns := columns p;
     style :=
       Some (StyleFunction (Sample.function [])
               (fun _ => JObj [("normal", JObj [("stroke", JStr "red")]);
                               ("highlighted", JObj []);
                               ("selected", JObj []);
                               ("muted", JObj [])]));
     interpolation := interpolation p;
     breakLine := breakLine p;
     selection := selection p;
     onSelectionChange := onSelectionChange p;
     highlight := highlight p;
     onHighlightChange := onHighlightChange p;
     visible := visible p |}.

(** The same chart with another style prop. *)
Definition set_style (st : option StyleProp) (p : LineChartProps)
  : LineChartProps :=
  {| width := width p;
     timeScale := timeScale p;
     yScale := yScale p;
     series := series p;
     axis := axis p;
     columns := columns p;
     style := st;
     interpolation := interpolation p;
     breakLine := breakLine p;
     selection := selection p;
     onSelectionChange := onSelectionChange p;
     highlight := highlight p;
     onHighlightChange := onHighlightChange p;
     visible := visible p |}.

End Observe.

(* ================================================================== *)
(** * Properties *)

Import LineChart.

(** ** The exception monad *)

Lemma bind_assoc {A B C} (m : result A) (f : A -> result B)
  (g : B -> result C) :
  bind (bind m f) g = bind m (fun a => bind (f a) g).
Proof. destruct m; reflexivity. Qed.

Lemma bind_ext {A B} (m : result A) (f g : A -> result B) :
  (forall a, f a = g a) -> bind m f = bind m g.
Proof. intros E. destruct m; simpl; auto. Qed.

Lemma mapM_throw {A B} (f : A -> result B) (xs : list A) (x0 : A) :
  In x0 xs -> f x0 = Throw TypeError -> mapM f xs = Throw TypeError.
Proof.
  induction xs as [|a rest IH]; simpl; intros Hin Hthrow.
  - contradiction.
  - destruct (f a) as [b|[]] eqn:Ea; simpl; [|reflexivity].
    destruct Hin as [->|Hin]; [congruence|].
    rewrite (IH Hin Hthrow). reflexivity.
Qed.

(** ** Segmentation *)

Section Segmentation.

Variable ext : Collaborators.
Variable props : LineChartProps.
Variable column : string.

Lemma badPoint_good (d : Event) :
  negb (badPoint (get d column)) = Spec.good column d.
Proof.
  unfold badPoint, Spec.good.
  destruct (get d column) as [| | |[| |]| | |]; reflexivity.
Qed.

Lemma runs_nonempty (events : list Event) :
  exists run others, Spec.runs column events = run :: others.
Proof.
  destruct events as [|d rest]; simpl; eauto.
  destruct (Spec.good column d); eauto.
  destruct (Spec.runs column rest); eauto.
Qed.

(** The runs, laid end to end, are the good points of the series. *)
Lemma runs_concat (events : list Event) :
  List.concat (Spec.runs column events) = Spec.goodPoints column events.
Proof.
  unfold Spec.goodPoints.
  induction events as [|d rest IH]; simpl; [reflexivity|].
  destruct (Spec.good column d); simpl; [|exact IH].
  destruct (runs_nonempty rest) as (run & others & E).
  rewrite E in *. simpl in *. now rewrite IH.
Qed.

(** There is one more run than there are bad points. *)
Lemma runs_length (events : list Event) :
  List.length (Spec.runs column events)
  = S (List.length (filter (fun d => negb (Spec.good column d)) events)).
Proof.
  induction events as [|d rest IH]; simpl; [reflexivity|].
  destruct (Spec.good column d); simpl; [|now rewrite IH].
  destruct (runs_nonempty rest) as (run & others & E).
  rewrite E in *. exact IH.
Qed.

Lemma drawable_length (points : PointData) :
  (1 <? Z.of_nat (List.length points))%Z = Spec.drawable points.
Proof.
  unfold Spec.drawable.
  destruct (Nat.leb_spec 2 (List.length points));
    [apply Z.ltb_lt | apply Z.ltb_ge]; lia.
Qed.

Lemma prepend_nil (events : list Event) :
  Spec.prepend [] (Spec.runs column events) = Spec.runs column events.
Proof.
  destruct (runs_nonempty events) as (run & others & E).
  now rewrite E.
Qed.

(** The invariant of the [forEach] of the breaking branch: what the loop
    and the closing test still emit from a state are the drawable runs of
    the open run followed by the remaining events. *)
Lemma break_loop (events : list Event) :
  forall st : Loop,
    bind (foldM (breakStep ext props column) st events)
      (fun st =>
         match currentPoints st with
         | Some points =>
             if (1 <? Z.of_nat (List.length points))%Z then
               path <- renderPath ext props points column (count st) ;;
               Ok (pathLines st ++ [path])
             else Ok (pathLines st)
         | None => Ok (pathLines st)
         end)
    = bind (Spec.emit ext props column (count st)
              (filter Spec.drawable
                 (Spec.prepend (Spec.openRun (currentPoints st))
                    (Spec.runs column events))))
        (fun paths => Ok (pathLines st ++ paths)).
Proof.
  induction events as [|d rest IH]; intros [lines k current].
  - simpl. destruct current as [points|]; simpl.
    + rewrite app_nil_r, drawable_length.
      destruct (Spec.drawable points); simpl.
      * destruct (renderPath ext props points column k); reflexivity.
      * now rewrite app_nil_r.
    + now rewrite app_nil_r.
  - simpl foldM. unfold breakStep at 1.
    rewrite badPoint_good. simpl Spec.runs.
    destruct (Spec.good column d); simpl negb; cbv iota.
    + simpl bind at 2. rewrite IH. simpl.
      destruct (runs_nonempty rest) as (run & others & E).
      rewrite E. simpl. now rewrite <- app_assoc.
    + simpl currentPoints. simpl count. simpl pathLines.
      destruct current as [points|].
      * rewrite drawable_length. simpl Spec.openRun. simpl Spec.prepend.
        rewrite app_nil_r. simpl filter.
        destruct (Spec.drawable points).
        -- simpl Spec.emit. rewrite !bind_assoc.
           apply bind_ext. intros path. simpl bind at 1.
           rewrite IH. simpl. rewrite prepend_nil, !bind_assoc.
           apply bind_ext. intros paths. simpl.
           now rewrite <- app_assoc.
        -- simpl bind at 2. rewrite IH. simpl. now rewrite prepend_nil.
      * simpl bind at 2. rewrite IH. simpl. now rewrite prepend_nil.
Qed.

Lemma clean_loop (events : list Event) :
  forall cleanedPoints : PointData,
    fold_left (cleanStep column) events cleanedPoints
    = cleanedPoints ++ Spec.goodPoints column events.
Proof.
  unfold Spec.goodPoints.
  induction events as [|d rest IH]; intros acc; simpl.
  - now rewrite app_nil_r.
  - unfold cleanStep at 2. rewrite badPoint_good, IH.
    destruct (Spec.good column d); simpl; [|reflexivity].
    now rewrite <- app_assoc.
Qed.

Lemma renderLine_segments :
  renderLine ext props column
  = Spec.drawn ext props column
      (Spec.segments (truthy_bool (breakLine props)) column
         (eventList (series props))).
Proof.
  unfold renderLine, Spec.drawn, Spec.segments.
  destruct (truthy_bool (breakLine props)).
  - rewrite break_loop. simpl. rewrite prepend_nil.
    rewrite bind_assoc. reflexivity.
  - rewrite clean_loop. simpl.
    destruct (renderPath ext props _ column 1); reflexivity.
Qed.

End Segmentation.

Lemma runs_all_good (column : string) (events : list Event) :
  forallb (Spec.good column) events = true ->
  Spec.runs column events = [map (Spec.point column) events]
  /\ Spec.goodPoints column events = map (Spec.point column) events.
Proof.
  unfold Spec.goodPoints.
  induction events as [|d rest IH]; simpl; intros Hgood.
  - split; reflexivity.
  - apply andb_prop in Hgood. destruct Hgood as [Hd Hrest].
    destruct (IH Hrest) as [Eruns Epoints].
    rewrite Hd, Eruns. simpl. rewrite Epoints. split; reflexivity.
Qed.

(** [breakLine] is read by [renderLine] alone. *)
Lemma renderPath_set_breakLine ext b props data column key :
  renderPath ext (set_breakLine b props) data column key
  = renderPath ext props data column key.
Proof. destruct props; reflexivity. Qed.

Lemma drawn_set_breakLine ext b props column segs :
  Spec.drawn ext (set_breakLine b props) column segs
  = Spec.drawn ext props column segs.
Proof.
  unfold Spec.drawn. f_equal.
  generalize 1%Z.
  induction segs as [|segment rest IH]; intros key; simpl; [reflexivity|].
  now rewrite renderPath_set_breakLine, IH.
Qed.

(** With the default interpolation a path is drawn as soon as its style
    resolves. *)
Lemma renderPath_linear ext props data column key style :
  interpolation props = Some "curveLinear" ->
  pathStyle ext props "line" column = Ok style ->
  exists path, renderPath ext props data column key = Ok path.
Proof.
  intros Hlinear Hstyle. unfold renderPath. rewrite Hlinear, Hstyle.
  destruct (d3_line_linear ext
              (map (fun d => (scale_apply (timeScale props) (x d),
                              scale_apply (yScale props) (y d))) data))
    as [path ->].
  simpl. eauto.
Qed.

(** C1. For every series and every column, [renderLine] draws exactly the
    segments of the specification, one path per segment, keyed 1, 2, ... in
    order: with [breakLine] set, the maximal runs of consecutive good points
    that hold at least two points (shorter runs are dropped, the run still
    open at the end of the series included); with [breakLine] off, one
    segment that holds every good point of the series in order, however few.
    For the series [1, 2, bad, 4, 5], breaking yields the two segments [1,2]
    and [4,5], and not breaking the single segment [1,2,4,5]. *)
Theorem renderLine_segmentation :
  (forall ext props column,
      renderLine ext props column
      = Spec.drawn ext props column
          (Spec.segments (truthy_bool (breakLine props)) column
             (eventList (series props))))
  /\ (forall column events,
        Spec.segments true column events
        = filter (fun run => (2 <=? List.length run)%nat)
            (Spec.runs column events)
        /\ List.concat (Spec.runs column events)
           = map (Spec.point column) (filter (Spec.good column) events)
        /\ List.length (Spec.runs column events)
           = S (List.length
                  (filter (fun d => negb (Spec.good column d)) events))
        /\ Spec.segments false column events
           = [map (Spec.point column) (filter (Spec.good column) events)])
  /\ (forall ext,
        let broken :=
          Sample.chart Sample.series_12b45 (Some true) None None in
        let joined :=
          Sample.chart Sample.series_12b45 (Some false) None None in
        let p1 := {| x := 500; y := Sample.n 1 |} in
        let p2 := {| x := 1500; y := Sample.n 2 |} in
        let p4 := {| x := 3500; y := Sample.n 4 |} in
        let p5 := {| x := 4500; y := Sample.n 5 |} in
        (exists a b,
            renderLine ext broken "value"
            = Ok (Elem "g" (Some (JStr "value")) [] [a; b])
            /\ renderPath ext broken [p1; p2] "value" 1 = Ok a
            /\ renderPath ext broken [p4; p5] "value" 2 = Ok b)
        /\ (exists c,
               renderLine ext joined "value"
               = Ok (Elem "g" (Some (JStr "value")) [] [c])
               /\ renderPath ext joined [p1; p2; p4; p5] "value" 1 = Ok c)).
Proof.
  split; [|split].
  - intros. apply renderLine_segments.
  - intros column events. repeat split.
    + apply runs_concat.
    + apply runs_length.
  - intros ext. cbv zeta. split.
    + edestruct (renderPath_linear ext
                   (Sample.chart Sample.series_12b45 (Some true) None None)
                   [{| x := 500; y := Sample.n 1 |};
                    {| x := 1500; y := Sample.n 2 |}] "value" 1)
        as [a Ha]; [reflexivity|reflexivity|].
      edestruct (renderPath_linear ext
                   (Sample.chart Sample.series_12b45 (Some true) None None)
                   [{| x := 3500; y := Sample.n 4 |};
                    {| x := 4500; y := Sample.n 5 |}] "value" 2)
        as [b Hb]; [reflexivity|reflexivity|].
      exists a, b. split; [|split; assumption].
      rewrite renderLine_segments. unfold Spec.drawn.
      change (Spec.segments _ "value" _)
        with [[{| x := 500; y := Sample.n 1 |};
               {| x := 1500; y := Sample.n 2 |}];
              [{| x := 3500; y := Sample.n 4 |};
               {| x := 4500; y := Sample.n 5 |}]].
      cbn [Spec.emit]. change (1 + 1)%Z with 2%Z.
      rewrite Ha, Hb. reflexivity.
    + edestruct (renderPath_linear ext
                   (Sample.chart Sample.series_12b45 (Some false) None None)
                   [{| x := 500; y := Sample.n 1 |};
                    {| x := 1500; y := Sample.n 2 |};
                    {| x := 3500; y := Sample.n 4 |};
                    {| x := 4500; y := Sample.n 5 |}] "value" 1)
        as [c Hc]; [reflexivity|reflexivity|].
      exists c. split; [|assumption].
      rewrite renderLine_segments. unfold Spec.drawn.
      change (Spec.segments _ "value" _)
        with [[{| x := 500; y := Sample.n 1 |};
               {| x := 1500; y := Sample.n 2 |};
               {| x := 3500; y := Sample.n 4 |};
               {| x := 4500; y := Sample.n 5 |}]].
      cbn [Spec.emit]. rewrite Hc. reflexivity.
Qed.

(** The third example of the specification: in [1, bad, 2, bad] every run
    holds one point, and breaking draws nothing. *)
Example renderLine_isolated_points ext :
  renderLine ext (Sample.chart Sample.series_1b2b (Some true) None None) "value"
  = Ok (Elem "g" (Some (JStr "value")) [] []).
Proof. rewrite renderLine_segments. reflexivity. Qed.

(** C4, as stated, fails on the empty series: it has no bad value, breaking
    draws no segment, not breaking draws one (empty) segment. *)
Lemma breakLine_same_segment_counterexample :
  forallb (Spec.good "value") (eventList Sample.series_empty) = true
  /\ renderLine Sample.ext
       (Sample.chart Sample.series_empty (Some true) None None) "value"
     = Ok (Elem "g" (Some (JStr "value")) [] [])
  /\ renderLine Sample.ext
       (Sample.chart Sample.series_empty (Some true) None None) "value"
     <> renderLine Sample.ext
          (Sample.chart Sample.series_empty (Some false) None None) "value".
Proof.
  split; [reflexivity|]. split; [reflexivity|].
  vm_compute. discriminate.
Qed.

(** C4, amended. For every series with no bad value and every column:
    with [breakLine] off, [renderLine] draws one segment that holds all the
    points of the series, also when there are none or one; with at least
    two records, [renderLine] with [breakLine] set draws that same single
    segment; with fewer than two records and [breakLine] set it draws no
    segment. *)
Theorem breakLine_same_segment ext props column :
  forallb (Spec.good column) (eventList (series props)) = true ->
  let broken := set_breakLine (Some true) props in
  let joined := set_breakLine (Some false) props in
  let all := map (Spec.point column) (eventList (series props)) in
  renderLine ext joined column
  = (path <- renderPath ext props all column 1 ;;
     Ok (Elem "g" (Some (JStr column)) [] [path]))
  /\ List.length all = size (series props)
  /\ ((2 <= size (series props))%nat ->
      renderLine ext broken column = renderLine ext joined column)
  /\ ((size (series props) < 2)%nat ->
      renderLine ext broken column
      = Ok (Elem "g" (Some (JStr column)) [] [])).
Proof.
  intros Hgood broken joined all.
  destruct (runs_all_good column _ Hgood) as [Hruns Hpoints].
  assert (Hjoined :
    renderLine ext joined column = Spec.drawn ext props column [all]).
  { unfold joined. rewrite renderLine_segments, drawn_set_breakLine.
    simpl. unfold Spec.segments. now rewrite Hpoints. }
  assert (Hbroken :
    renderLine ext broken column
    = Spec.drawn ext props column (filter Spec.drawable [all])).
  { unfold broken. rewrite renderLine_segments, drawn_set_breakLine.
    simpl. unfold Spec.segments. now rewrite Hruns. }
  assert (Hlength : List.length all = size (series props))
    by (unfold all, size; apply length_map).
  split; [|split; [exact Hlength|split]].
  - rewrite Hjoined. unfold Spec.drawn. cbn [Spec.emit].
    destruct (renderPath ext props all column 1); reflexivity.
  - intros Hsize. rewrite Hbroken, Hjoined. simpl.
    unfold Spec.drawable. rewrite Hlength.
    destruct (Nat.leb_spec 2 (size (series props))); [reflexivity | lia].
  - intros Hsize. rewrite Hbroken. simpl.
    unfold Spec.drawable. rewrite Hlength.
    destruct (Nat.leb_spec 2 (size (series props))); [lia | reflexivity].
Qed.

Lemma breakLine_same_segment_witness :
  (renderLine Sample.ext
     (set_breakLine (Some true)
        (Sample.chart Sample.series_123 None None None)) "value"
   = renderLine Sample.ext
       (set_breakLine (Some false)
          (Sample.chart Sample.series_123 None None None)) "value")
  /\ renderLine Sample.ext
       (set_breakLine (Some true)
          (Sample.chart Sample.series_empty None None None)) "value"
     = Ok (Elem "g" (Some (JStr "value")) [] [])
  /\ renderLine Sample.ext
       (set_breakLine (Some false)
          (Sample.chart Sample.series_empty None None None)) "value"
     = (path <- renderPath Sample.ext
                  (Sample.chart Sample.series_empty None None None)
                  [] "value" 1 ;;
        Ok (Elem "g" (Some (JStr "value")) [] [path])).
Proof.
  destruct (breakLine_same_segment Sample.ext
              (Sample.chart Sample.series_123 None None None) "value"
              eq_refl) as (_ & _ & Hsame & _).
  destruct (breakLine_same_segment Sample.ext
              (Sample.chart Sample.series_empty None None None) "value"
              eq_refl) as (Hjoined & _ & _ & Hnone).
  split; [|split].
  - apply Hsame. unfold size. simpl. lia.
  - apply Hnone. unfold size. simpl. lia.
  - exact Hjoined.
Defined.

(** ** Style resolution *)

Section StyleResolution.

Variable ext : Collaborators.
Variable props : LineChartProps.

Lemma pathStyle_resolve (element column : string) :
  pathStyle ext props element column
  = Spec.resolved ext props element column
      (Spec.resolve (selection props) (highlight props) column).
Proof.
  unfold pathStyle, Spec.resolved, Spec.channel, Spec.resolve.
  cbn [find Spec.applies Spec.precedence]. unfold Spec.names.
  apply bind_ext. intros styleMap.
  rewrite bind_assoc. apply bind_ext. intros e. cbn [bind].
  generalize (if truthy e then e else styleMap). intros s.
  unfold Spec.styled, overrides.
  destruct (truthy_str (selection props));
    destruct (str_strict_eq (Some column) (selection props));
    destruct (truthy_str (highlight props));
    destruct (str_strict_eq (Some column) (highlight props));
    cbn [andb find Spec.applies Spec.precedence Spec.stateName Spec.defaults];
    match goal with
    | |- context [get_prop s ?k] => destruct (get_prop s k); reflexivity
    end.
Qed.

Lemma resolve_selection (column : string) :
  truthy_str (selection props) = true ->
  Spec.resolve (selection props) (highlight props) column
  = if Spec.names (selection props) column then Selected
    else if Spec.names (highlight props) column then Highlighted
    else Muted.
Proof.
  intros Hsel. unfold Spec.resolve.
  cbn [find Spec.applies Spec.precedence]. rewrite Hsel.
  destruct (Spec.names (selection props) column); [reflexivity|].
  destruct (Spec.names (highlight props) column); reflexivity.
Qed.

Lemma resolve_no_selection (column : string) :
  truthy_str (selection props) = false ->
  Spec.resolve (selection props) (highlight props) column
  = if Spec.names (highlight props) column then Highlighted else Normal.
Proof.
  intros Hsel. unfold Spec.resolve.
  cbn [find Spec.applies Spec.precedence]. rewrite Hsel.
  unfold Spec.names at 1. rewrite Hsel. cbn [andb].
  destruct (Spec.names (highlight props) column); reflexivity.
Qed.

Lemma resolve_muted (column : string) :
  Spec.resolve (selection props) (highlight props) column = Muted ->
  exists other,
    selection props = Some other /\ other <> "" /\ other <> column.
Proof.
  destruct (truthy_str (selection props)) eqn:Hsel.
  - rewrite (resolve_selection column Hsel). unfold Spec.names.
    rewrite Hsel. simpl.
    destruct (selection props) as [other|]; [|discriminate].
    simpl in *. intros Hmuted. exists other. split; [reflexivity|].
    split.
    + intros ->. discriminate.
    + intros ->. rewrite String.eqb_refl in Hmuted. discriminate.
  - rewrite (resolve_no_selection column Hsel).
    destruct (Spec.names _ _); discriminate.
Qed.

Lemma names_literal (c column : string) :
  c <> "" -> Spec.names (Some c) column = String.eqb column c.
Proof.
  intros Hc. unfold Spec.names. simpl.
  destruct (String.eqb_spec c ""); [contradiction|reflexivity].
Qed.

End StyleResolution.

(** C2. For every column and every selection and highlight, [pathStyle]
    yields the style of the state the precedence picks: with a selection,
    selected for the selected column, highlighted for a highlighted column
    that is not selected, muted for every other column; without one,
    highlighted for the highlighted column and normal otherwise.  A column is
    muted only when another column is selected. *)
Theorem pathStyle_precedence ext props element column :
  let state := Spec.resolve (selection props) (highlight props) column in
  pathStyle ext props element column
  = Spec.resolved ext props element column state
  /\ (truthy_str (selection props) = true ->
      state = if Spec.names (selection props) column then Selected
              else if Spec.names (highlight props) column then Highlighted
              else Muted)
  /\ (truthy_str (selection props) = false ->
      state = if Spec.names (highlight props) column then Highlighted
              else Normal)
  /\ (state = Muted ->
      exists other,
        selection props = Some other /\ other <> "" /\ other <> column).
Proof.
  cbv zeta. split; [apply pathStyle_resolve|].
  split; [apply resolve_selection|].
  split; [apply resolve_no_selection|apply resolve_muted].
Qed.

Lemma pathStyle_precedence_witness :
  (Spec.resolve (Some "b") (Some "a") "c" = Muted
   /\ exists other, Some "b" = Some other /\ other <> "" /\ other <> "c")
  /\ Spec.resolve None (Some "a") "a" = Highlighted.
Proof.
  split.
  - destruct (pathStyle_precedence Sample.ext
                (Sample.chart Sample.series_empty None (Some "b") (Some "a"))
                "line" "c") as (_ & Hsel & _ & Hmuted).
    split; [exact (Hsel eq_refl)|exact (Hmuted eq_refl)].
  - destruct (pathStyle_precedence Sample.ext
                (Sample.chart Sample.series_empty None None (Some "a"))
                "line" "a") as (_ & _ & Hnone & _).
    exact (Hnone eq_refl).
Defined.

(** C3, as stated, fails for a highlighted column beside the selection: with
    selection b and highlight a, column a takes the highlighted style, not
    the muted one. *)
Lemma selection_mutes_highlight_counterexample :
  pathStyle Sample.ext
    (Sample.chart Sample.series_empty None (Some "b") (Some "a")) "line" "a"
  = Ok (JObj [("stroke", JStr "#5a98cb"); ("pointerEvents", JStr "none")])
  /\ Spec.resolved Sample.ext
       (Sample.chart Sample.series_empty None (Some "b") (Some "a"))
       "line" "a" Highlighted
     = Ok (JObj [("stroke", JStr "#5a98cb"); ("pointerEvents", JStr "none")])
  /\ Spec.resolve_section8 (Some "b") (Some "a") "a" = Muted
  /\ pathStyle Sample.ext
       (Sample.chart Sample.series_empty None (Some "b") (Some "a")) "line" "a"
     <> Spec.resolved Sample.ext
          (Sample.chart Sample.series_empty None (Some "b") (Some "a"))
          "line" "a" (Spec.resolve_section8 (Some "b") (Some "a") "a").
Proof.
  repeat split. vm_compute. discriminate.
Qed.

(** C3, amended. When the selection is b, column b takes the selected style;
    any other column takes the highlighted style if it is the current
    highlight and the muted style otherwise.  When there is no selection and
    the highlight is a, column a takes the highlighted style and every other
    column the normal one. *)
Theorem pathStyle_selection_highlight ext props element column :
  (selection props = Some "b" ->
   pathStyle ext props element column
   = Spec.resolved ext props element column
       (if String.eqb column "b" then Selected
        else if Spec.names (highlight props) column then Highlighted
        else Muted))
  /\ (truthy_str (selection props) = false ->
      highlight props = Some "a" ->
      pathStyle ext props element column
      = Spec.resolved ext props element column
          (if String.eqb column "a" then Highlighted else Normal)).
Proof.
  split.
  - intros Hsel. rewrite pathStyle_resolve, resolve_selection.
    + rewrite Hsel, names_literal; [reflexivity|discriminate].
    + now rewrite Hsel.
  - intros Hsel Hhl. rewrite pathStyle_resolve, resolve_no_selection by easy.
    rewrite Hhl, names_literal; [reflexivity|discriminate].
Qed.

Lemma pathStyle_selection_highlight_witness :
  pathStyle Sample.ext
    (Sample.chart Sample.series_empty None (Some "b") (Some "a")) "line" "b"
  = Spec.resolved Sample.ext
      (Sample.chart Sample.series_empty None (Some "b") (Some "a"))
      "line" "b" Selected
  /\ pathStyle Sample.ext
       (Sample.chart Sample.series_empty None None (Some "a")) "line" "value"
     = Spec.resolved Sample.ext
         (Sample.chart Sample.series_empty None None (Some "a"))
         "line" "value" Normal.
Proof.
  split.
  - apply (pathStyle_selection_highlight Sample.ext
             (Sample.chart Sample.series_empty None (Some "b") (Some "a"))
             "line" "b").
    reflexivity.
  - apply (pathStyle_selection_highlight Sample.ext
             (Sample.chart Sample.series_empty None None (Some "a"))
             "line" "value"); reflexivity.
Defined.

(** ** A style that resolves to undefined *)

(** How the three shapes of the style prop resolve.  A function is an
    object for [_.isObject], so the branch that would call it is never
    reached: the column is looked up among the members of the function
    itself. *)
Lemma providedPathStyleMap_cases props column :
  (style props = None -> providedPathStyleMap props column = Ok JUndefined)
  /\ (forall m, style props = Some (StyleStyler m) ->
                providedPathStyleMap props column = Ok (m column))
  /\ (forall m, style props = Some (StyleObject m) ->
                providedPathStyleMap props column = Ok (m column))
  /\ (forall members fn, style props = Some (StyleFunction members fn) ->
                         providedPathStyleMap props column
                         = Ok (members column)).
Proof.
  unfold providedPathStyleMap.
  repeat split; intros; match goal with H : style props = _ |- _ =>
    rewrite H end; reflexivity.
Qed.

Lemma pathStyle_undefined ext props element column :
  providedPathStyleMap props column = Ok JUndefined ->
  pathStyle ext props element column = Throw TypeError.
Proof. intros H. unfold pathStyle. rewrite H. reflexivity. Qed.

Lemma renderPath_undefined ext props data column key :
  providedPathStyleMap props column = Ok JUndefined ->
  renderPath ext props data column key = Throw TypeError.
Proof.
  intros H. unfold renderPath.
  rewrite (pathStyle_undefined ext props "line" column H).
  destruct (d3_line ext _ _) as [path|[]]; reflexivity.
Qed.

(** C6. If the style source resolves to undefined for a column, [pathStyle]
    fails at once with a TypeError (the property access on undefined) for
    every element; nothing recovers from it: every path of that column
    fails, so does [renderLine] as soon as the column has a segment to draw,
    and so does [render] when the column is one of the columns drawn. *)
Theorem undefined_style_fails ext props column :
  providedPathStyleMap props column = Ok JUndefined ->
  (forall element, pathStyle ext props element column = Throw TypeError)
  /\ (forall data key,
        renderPath ext props data column key = Throw TypeError)
  /\ (Spec.segments (truthy_bool (breakLine props)) column
        (eventList (series props)) <> [] ->
      renderLine ext props column = Throw TypeError
      /\ forall array,
          columns props = Some array -> In column (items array) ->
          render ext props = Throw TypeError).
Proof.
  intros Hundef. split; [|split].
  - intros element. now apply pathStyle_undefined.
  - intros data key. now apply renderPath_undefined.
  - intros Hsegs.
    assert (Hline : renderLine ext props column = Throw TypeError).
    { rewrite renderLine_segments. unfold Spec.drawn.
      destruct (Spec.segments _ column _) as [|segment rest];
        [contradiction|].
      simpl. now rewrite renderPath_undefined. }
    split; [exact Hline|].
    intros array Hcolumns Hin. unfold render, renderLines.
    rewrite Hcolumns.
    now rewrite (mapM_throw (renderLine ext props) _ column Hin Hline).
Qed.

Lemma undefined_style_fails_witness :
  pathStyle Sample.ext
    (Sample.chart Sample.series_12b45 (Some true) None None) "line" "other"
  = Throw TypeError
  /\ renderLine Sample.ext
       (Sample.chart Sample.series_12b45 (Some true) None None) "other"
     = Throw TypeError
  /\ render Sample.ext
       (Sample.chart Sample.series_12b45 (Some true) None None)
     = Throw TypeError.
Proof.
  destruct (undefined_style_fails Sample.ext
              (Sample.chart Sample.series_12b45 (Some true) None None)
              "other")
    as (Hstyle & _ & Hline).
  - reflexivity.
  - split; [exact (Hstyle "line")|].
    destruct Hline as [Hline Hrender].
    + intros Hnone. vm_compute in Hnone. discriminate Hnone.
    + split; [exact Hline|].
      apply (Hrender {| array_id := 3; items := ["value"; "other"] |}).
      * reflexivity.
      * simpl. right. left. reflexivity.
Defined.

(** ** Re-render suppression *)

Lemma str_strict_eq_refl (a : option string) : str_strict_eq a a = true.
Proof. destruct a; simpl; [apply String.eqb_refl|reflexivity]. Qed.

Lemma ref_strict_eq_same (a b : option StringArray) :
  option_map array_id a = option_map array_id b -> ref_strict_eq a b = true.
Proof.
  destruct a, b; simpl; intros H; try discriminate; [|reflexivity].
  injection H as ->. apply Nat.eqb_refl.
Qed.

Lemma shouldComponentUpdate_unchanged ext prev next :
  (width prev == width next)%Q ->
  size (series prev) = size (series next) ->
  TimeSeries_is ext (series prev) (series next) = true ->
  scaleAsString ext (timeScale prev) = scaleAsString ext (timeScale next) ->
  scale_id (yScale prev) = scale_id (yScale next) ->
  interpolation prev = interpolation next ->
  highlight prev = highlight next ->
  selection prev = selection next ->
  option_map array_id (columns prev) = option_map array_id (columns next) ->
  shouldComponentUpdate ext prev next = false.
Proof.
  unfold shouldComponentUpdate.
  intros Hwidth Hsize His Htime Hy Hinterp Hhl Hsel Hcols.
  apply Qeq_bool_iff in Hwidth.
  rewrite Hwidth, Hsize, Nat.eqb_refl, His, Htime, String.eqb_refl,
    Hy, Nat.eqb_refl, Hinterp, Hhl, Hsel, !str_strict_eq_refl,
    (ref_strict_eq_same _ _ Hcols).
  reflexivity.
Qed.

Lemma shouldComponentUpdate_size ext prev next :
  size (series prev) <> size (series next) ->
  shouldComponentUpdate ext prev next = true.
Proof.
  unfold shouldComponentUpdate.
  intros Hsize. apply Nat.eqb_neq in Hsize. rewrite Hsize. simpl.
  now rewrite orb_true_r.
Qed.

(** C5. [shouldComponentUpdate] returns false when the tracked props are
    unchanged: the same pixel width, series of the same size that
    [TimeSeries.is] finds equal, time scales that print the same, the same
    value-scale object, interpolation, highlight and selection, and the same
    columns array.  It returns true whenever the sizes of the two series
    differ, whatever the other props are. *)
Theorem shouldComponentUpdate_tracked ext prev next :
  ((width prev == width next)%Q ->
   size (series prev) = size (series next) ->
   TimeSeries_is ext (series prev) (series next) = true ->
   scaleAsString ext (timeScale prev) = scaleAsString ext (timeScale next) ->
   scale_id (yScale prev) = scale_id (yScale next) ->
   interpolation prev = interpolation next ->
   highlight prev = highlight next ->
   selection prev = selection next ->
   option_map array_id (columns prev) = option_map array_id (columns next) ->
   shouldComponentUpdate ext prev next = false)
  /\ (size (series prev) <> size (series next) ->
      shouldComponentUpdate ext prev next = true).
Proof.
  split.
  - apply shouldComponentUpdate_unchanged.
  - apply shouldComponentUpdate_size.
Qed.

Lemma shouldComponentUpdate_tracked_witness :
  shouldComponentUpdate Sample.ext
    (Sample.chart Sample.series_123 (Some true) None None)
    (Sample.chart Sample.series_123 (Some false) None None) = false
  /\ shouldComponentUpdate Sample.ext
       (Sample.chart Sample.series_123 (Some true) None None)
       (Sample.chart Sample.series_12b45 (Some true) None None) = true.
Proof.
  split.
  - apply (shouldComponentUpdate_tracked Sample.ext
             (Sample.chart Sample.series_123 (Some true) None None)
             (Sample.chart Sample.series_123 (Some false) None None));
      reflexivity.
  - apply (shouldComponentUpdate_tracked Sample.ext
             (Sample.chart Sample.series_123 (Some true) None None)
             (Sample.chart Sample.series_12b45 (Some true) None None)).
    simpl. discriminate.
Defined.

(** C9. Two prop records that agree on the tracked props (width, series,
    time scale, value scale, interpolation, highlight, selection, columns)
    never ask for an update, whatever their style, breakLine, visible, axis,
    onSelectionChange and onHighlightChange are; [TimeSeries.is] is taken to
    find a series equal to itself. *)
Theorem untracked_props_no_update ext prev next :
  (forall s, TimeSeries_is ext s s = true) ->
  (width next == width prev)%Q ->
  series next = series prev ->
  timeScale next = timeScale prev ->
  yScale next = yScale prev ->
  interpolation next = interpolation prev ->
  highlight next = highlight prev ->
  selection next = selection prev ->
  columns next = columns prev ->
  shouldComponentUpdate ext prev next = false.
Proof.
  intros Hrefl Hwidth Hseries Htime Hy Hinterp Hhl Hsel Hcols.
  apply shouldComponentUpdate_unchanged.
  - now symmetry.
  - now rewrite Hseries.
  - rewrite Hseries. apply Hrefl.
  - now rewrite Htime.
  - now rewrite Hy.
  - now symmetry.
  - now symmetry.
  - now symmetry.
  - now rewrite Hcols.
Qed.

Lemma untracked_props_no_update_witness :
  shouldComponentUpdate Sample.ext
    (Sample.chart Sample.series_12b45 (Some true) (Some "a") None)
    (Sample.otherwise
       (Sample.chart Sample.series_12b45 (Some true) (Some "a") None))
  = false.
Proof.
  apply (untracked_props_no_update Sample.ext
           (Sample.chart Sample.series_12b45 (Some true) (Some "a") None)
           (Sample.otherwise
              (Sample.chart Sample.series_12b45 (Some true) (Some "a") None)));
    try reflexivity.
  intros s. simpl. apply Nat.eqb_refl.
Defined.

(** ** The visible prop *)

(** C10. What [render] returns does not depend on [visible]: two prop
    records that differ in [visible] alone (true, false or absent) render
    the same tree, before and after the default props are filled in. *)
Theorem render_ignores_visible ext props v :
  render ext (set_visible v props) = render ext props
  /\ render ext (withDefaults (set_visible v props))
     = render ext (withDefaults props).
Proof. destruct props; split; reflexivity. Qed.

(** ** LabelAxis *)

Import LabelAxis.

(** C7, as stated, fails on the empty list of values, which is also what an
    omitted [values] prop defaults to: no auxiliary value is given, yet the
    title sits at max(round(height/4), 10) = 25 for a height of 100, not at
    round(height/2) = 50. *)
Lemma title_position_counterexample :
  Spec.valuesGiven (JArr []) = false
  /\ values (LabelAxis.withDefaults (Sample.labelAxis JUndefined None))
     = JArr []
  /\ Tree.titleY
       (LabelAxis.render Sample.axisExt (Sample.labelAxis (JArr []) None))
     = Some (PVal (JNum (num 25)))
  /\ Tree.titleY
       (LabelAxis.render Sample.axisExt (Sample.labelAxis (JArr []) None))
     <> Some (PVal (JNum (Spec.titlePosition (Some (num 100)) (JArr [])))).
Proof.
  repeat split. vm_compute. discriminate.
Qed.

(** C7, amended. The title's vertical position is max(round(height/4), 10)
    whenever the [values] prop is truthy, which every list is, the empty
    list included, and with it the default of an omitted prop; it is
    round(height/2) only when [values] is falsy, as null is. *)
Theorem title_position ext props :
  let quarter :=
    Math_max (Math_round (num_div (toNumber (height props)) (num 4)))
             (num 10) in
  let half := Math_round (num_div (toNumber (height props)) (num 2)) in
  Tree.titleY (LabelAxis.render ext props)
  = Some (PVal (JNum (if truthy (values props) then quarter else half)))
  /\ (forall items,
        values props = JArr items ->
        Tree.titleY (LabelAxis.render ext props)
        = Some (PVal (JNum quarter)))
  /\ (values props = JUndefined ->
      Tree.titleY (LabelAxis.render ext (LabelAxis.withDefaults props))
      = Some (PVal (JNum quarter)))
  /\ (values props = JNull ->
      Tree.titleY (LabelAxis.render ext props) = Some (PVal (JNum half))).
Proof.
  cbv zeta.
  assert (Hany : forall p,
    Tree.titleY (LabelAxis.render ext p)
    = Some (PVal (JNum
        (if truthy (values p)
         then Math_max (Math_round (num_div (toNumber (height p)) (num 4)))
                       (num 10)
         else Math_round (num_div (toNumber (height p)) (num 2)))))).
  { intros p. unfold LabelAxis.render, Tree.titleY.
    destruct (truthy (values p)); reflexivity. }
  split; [apply Hany|]. split; [|split].
  - intros items Hvalues. rewrite Hany, Hvalues. reflexivity.
  - intros Hvalues. rewrite Hany. simpl. rewrite Hvalues. reflexivity.
  - intros Hvalues. rewrite Hany, Hvalues. reflexivity.
Qed.

Lemma title_position_witness :
  Tree.titleY
    (LabelAxis.render Sample.axisExt (Sample.labelAxis (JArr []) None))
  = Some (PVal (JNum (num 25)))
  /\ Tree.titleY
       (LabelAxis.render Sample.axisExt
          (LabelAxis.withDefaults (Sample.labelAxis JUndefined None)))
     = Some (PVal (JNum (num 25)))
  /\ Tree.titleY
       (LabelAxis.render Sample.axisExt (Sample.labelAxis JNull None))
     = Some (PVal (JNum (num 50))).
Proof.
  split; [|split].
  - destruct (title_position Sample.axisExt
                (Sample.labelAxis (JArr []) None)) as (_ & Hlist & _).
    exact (Hlist [] eq_refl).
  - destruct (title_position Sample.axisExt
                (Sample.labelAxis JUndefined None)) as (_ & _ & Hdefault & _).
    exact (Hdefault eq_refl).
  - destruct (title_position Sample.axisExt
                (Sample.labelAxis JNull None)) as (_ & _ & _ & Hnull).
    exact (Hnull eq_refl).
Defined.

(** C8. For every min, max, width and height, a LabelAxis with [hideScale]
    set draws no min or max text: its scale group is empty and the title is
    the only text element of the output.  With [hideScale] off it draws
    exactly two, the formatted max at y = 0 (the top) and the formatted min
    at y = height (the bottom), after the title. *)
Theorem hideScale_annotations ext props :
  exists title,
    Tree.children title = [TextNode (label props)]
    /\ (truthy_bool (hideScale props) = true ->
        LabelAxis.renderAxis ext props = Elem "g" None [] []
        /\ Tree.textElements (LabelAxis.render ext props) = [title])
    /\ (truthy_bool (hideScale props) = false ->
        exists maxText minText,
          LabelAxis.renderAxis ext props
          = Elem "g" None [] [maxText; minText]
          /\ Tree.children maxText
             = [TextNode (d3_format ext (format props) (max props))]
          /\ Tree.attribute "y" maxText = Some (PVal (JNum (num 0)))
          /\ Tree.children minText
             = [TextNode (d3_format ext (format props) (min props))]
          /\ Tree.attribute "y" minText
             = Some (PVal (of_optnum (height props)))
          /\ Tree.textElements (LabelAxis.render ext props)
             = [title; maxText; minText]).
Proof.
  exists (nth 1 (Tree.children (LabelAxis.render ext props)) NullNode).
  unfold LabelAxis.render, LabelAxis.renderAxis.
  split; [|split].
  - destruct (truthy (values props)); reflexivity.
  - intros Hhide. rewrite Hhide. split; [reflexivity|].
    destruct (truthy (values props)); reflexivity.
  - intros Hhide. rewrite Hhide. eexists. eexists.
    split; [reflexivity|]. repeat split.
    destruct (truthy (values props)); reflexivity.
Qed.

Lemma hideScale_annotations_witness :
  LabelAxis.renderAxis Sample.axisExt
    (Sample.labelAxis (JArr []) (Some true)) = Elem "g" None [] []
  /\ exists maxText minText,
      LabelAxis.renderAxis Sample.axisExt (Sample.labelAxis (JArr []) None)
      = Elem "g" None [] [maxText; minText]
      /\ Tree.children maxText = [TextNode "100.46"]
      /\ Tree.children minText = [TextNode "0.00"].
Proof.
  split.
  - destruct (hideScale_annotations Sample.axisExt
                (Sample.labelAxis (JArr []) (Some true)))
      as (title & _ & Hhide & _).
    exact (proj1 (Hhide eq_refl)).
  - destruct (hideScale_annotations Sample.axisExt
                (Sample.labelAxis (JArr []) None))
      as (title & _ & _ & Hshow).
    destruct (Hshow eq_refl)
      as (maxText & minText & Haxis & Hmax & _ & Hmin & _).
    exists maxText, minText.
    split; [exact Haxis|]. split; [exact Hmax|exact Hmin].
Defined.

(* ================================================================== *)
(** * Further properties of LineChart *)

Import LineChart.

(** ** When a style can be read *)

Lemma get_prop_throw (v : value) (k : string) :
  get_prop v k = Throw TypeError <-> Observe.nullish v = true.
Proof. destruct v; simpl; split; intros H; congruence. Qed.

Lemma get_prop_ok (v : value) (k : string) :
  Observe.nullish v = false -> exists r, get_prop v k = Ok r.
Proof. destruct v; simpl; intros H; try discriminate; eauto. Qed.

Lemma truthy_not_nullish (v : value) :
  truthy v = true -> Observe.nullish v = false.
Proof. destruct v; simpl; intros H; congruence. Qed.

Lemma providedPathStyleMap_total props column :
  exists v, providedPathStyleMap props column = Ok v.
Proof.
  unfold providedPathStyleMap.
  destruct (style props) as [[m|m|own fn]|]; simpl; eauto.
Qed.

Lemma channel_ok (v : value) (element : string) :
  Observe.nullish v = false ->
  exists s, Spec.channel v element = Ok s /\ Observe.nullish s = false.
Proof.
  intros Hv. unfold Spec.channel.
  destruct (get_prop_ok v element Hv) as [e ->]. simpl.
  destruct (truthy e) eqn:He; eexists; split; try reflexivity.
  - now apply truthy_not_nullish.
  - exact Hv.
Qed.

Lemma assoc_set_field (k : string) (v : value) fields :
  assoc k (set_field k v fields) = v.
Proof.
  induction fields as [|[k' v'] rest IH]; simpl.
  - now rewrite String.eqb_refl.
  - destruct (String.eqb k k') eqn:E; simpl; rewrite E; [reflexivity|exact IH].
Qed.

Lemma styled_ok ext (st : StyleState) (s : value) :
  Observe.nullish s = false ->
  exists fields,
    Spec.styled ext st s = Ok (JObj fields)
    /\ assoc "pointerEvents" fields = JStr "none".
Proof.
  intros Hs. unfold Spec.styled, overrides.
  destruct (get_prop_ok s (Spec.stateName st) Hs) as [o ->]. simpl.
  eexists. split; [reflexivity|apply assoc_set_field].
Qed.

(** X2. [pathStyle] fails exactly when the style source resolves to
    undefined or to null for the column; any other value, of whatever
    shape, yields a style. *)
Theorem pathStyle_fails_iff ext props element column :
  pathStyle ext props element column = Throw TypeError
  <-> providedPathStyleMap props column = Ok JUndefined
      \/ providedPathStyleMap props column = Ok JNull.
Proof.
  rewrite pathStyle_resolve. unfold Spec.resolved.
  destruct (providedPathStyleMap_total props column) as [v ->]. simpl.
  destruct (Observe.nullish v) eqn:Hv.
  - destruct v; try discriminate; simpl; split; auto.
  - destruct (channel_ok v element Hv) as (s & -> & Hs). simpl.
    destruct (styled_ok ext
                (Spec.resolve (selection props) (highlight props) column)
                s Hs) as (fields & -> & _).
    split; [discriminate|].
    intros [H|H]; injection H as ->; discriminate.
Qed.

(** X3. Whenever [pathStyle] yields a style, it is an object whose
    pointerEvents is none, whatever the style source and the defaults
    say about pointer events. *)
Theorem pathStyle_pointerEvents ext props element column style :
  pathStyle ext props element column = Ok style ->
  exists fields,
    style = JObj fields /\ assoc "pointerEvents" fields = JStr "none".
Proof.
  rewrite pathStyle_resolve. unfold Spec.resolved.
  destruct (providedPathStyleMap_total props column) as [v ->]. simpl.
  destruct (Observe.nullish v) eqn:Hv.
  - destruct v; discriminate.
  - destruct (channel_ok v element Hv) as (s & -> & Hs). simpl.
    destruct (styled_ok ext
                (Spec.resolve (selection props) (highlight props) column)
                s Hs) as (fields & -> & Hnone).
    intros H. injection H as <-. eauto.
Qed.

Lemma pathStyle_pointerEvents_witness :
  exists fields,
    JObj [("stroke", JStr "red"); ("pointerEvents", JStr "none")]
    = JObj fields
    /\ assoc "pointerEvents" fields = JStr "none".
Proof.
  apply (pathStyle_pointerEvents Sample.ext
           (Sample.chart Sample.series_123 None None None) "line" "value").
  reflexivity.
Defined.

(** X1. A style given as a function is never called: what [pathStyle]
    yields does not depend on the code of the function, only on the
    members of the function object, among which the column is looked up;
    when that lookup yields undefined, [pathStyle] and every path of the
    column fail, whatever the function would return. *)
Theorem function_style_never_called ext props members fn fn' element column :
  pathStyle ext
    (Observe.set_style (Some (StyleFunction members fn)) props)
    element column
  = pathStyle ext
      (Observe.set_style (Some (StyleFunction members fn')) props)
      element column
  /\ (members column = JUndefined ->
      pathStyle ext
        (Observe.set_style (Some (StyleFunction members fn)) props)
        element column
      = Throw TypeError
      /\ forall data key,
          renderPath ext
            (Observe.set_style (Some (StyleFunction members fn)) props)
            data column key
          = Throw TypeError).
Proof.
  split; [destruct props; reflexivity|].
  intros Hmember.
  assert (H : providedPathStyleMap
                (Observe.set_style (Some (StyleFunction members fn)) props)
                column = Ok JUndefined).
  { unfold providedPathStyleMap. simpl. now rewrite Hmember. }
  split.
  - now apply pathStyle_undefined.
  - intros data key. now apply renderPath_undefined.
Qed.

Lemma function_style_never_called_witness :
  pathStyle Sample.ext
    (Observe.set_style
       (Some (StyleFunction (Sample.function [])
                (fun _ => JObj [("normal", JObj [("stroke", JStr "red")])])))
       (Sample.chart Sample.series_123 None None None))
    "line" "value"
  = Throw TypeError.
Proof.
  apply (function_style_never_called Sample.ext
           (Sample.chart Sample.series_123 None None None)
           (Sample.function [])
           (fun _ => JObj [("normal", JObj [("stroke", JStr "red")])])
           (fun _ => JUndefined)
           "line" "value").
  reflexivity.
Defined.

(** X4. A channel style may be nested under the element key or given
    flat: when the style of a column is an object that holds, under the
    element, the very object another chart gives directly (and that
    object has no truthy member of that name itself), both charts resolve
    the same path style. *)
Theorem style_nested_or_flat ext nested flat element column styleMap fields :
  providedPathStyleMap nested column = Ok styleMap ->
  get_prop styleMap element = Ok (JObj fields) ->
  providedPathStyleMap flat column = Ok (JObj fields) ->
  truthy (assoc element fields) = false ->
  selection flat = selection nested ->
  highlight flat = highlight nested ->
  pathStyle ext nested element column = pathStyle ext flat element column.
Proof.
  intros Hnested Hget Hflat Hown Hsel Hhl.
  rewrite !pathStyle_resolve. unfold Spec.resolved, Spec.channel.
  rewrite Hnested, Hflat, Hsel, Hhl. simpl. rewrite Hget, Hown. reflexivity.
Qed.

Lemma style_nested_or_flat_witness :
  pathStyle Sample.ext
    (Sample.chart Sample.series_123 None None None) "line" "value"
  = pathStyle Sample.ext
      (Observe.set_style
         (Some (StyleObject
                  (Sample.object
                     [("value",
                       JObj [("normal", JObj [("stroke", JStr "red")])])])))
         (Sample.chart Sample.series_123 None None None))
      "line" "value".
Proof.
  apply (style_nested_or_flat Sample.ext
           (Sample.chart Sample.series_123 None None None)
           (Observe.set_style
              (Some (StyleObject
                       (Sample.object
                          [("value",
                            JObj [("normal",
                                   JObj [("stroke", JStr "red")])])])))
              (Sample.chart Sample.series_123 None None None))
           "line" "value"
           (styleMap :=
              JObj [("line", JObj [("normal", JObj [("stroke", JStr "red")])])])
           (fields := [("normal", JObj [("stroke", JStr "red")])]));
    reflexivity.
Defined.

(** ** When rendering fails *)

Lemma renderPath_throw ext props data column key :
  renderPath ext props data column key = Throw TypeError
  <-> d3_line ext (interpolation props) (Observe.coordinates props data)
      = Throw TypeError
      \/ pathStyle ext props "line" column = Throw TypeError.
Proof.
  unfold renderPath, Observe.coordinates.
  destruct (d3_line ext (interpolation props) _) as [path|[]]; simpl.
  - destruct (pathStyle ext props "line" column) as [st|[]]; simpl.
    + split; [discriminate|]. intros [H|H]; discriminate H.
    + split; auto.
  - split; auto.
Qed.

Lemma emit_throw ext props column segs :
  forall key,
    Spec.emit ext props column key segs = Throw TypeError
    <-> exists segment,
        In segment segs
        /\ (d3_line ext (interpolation props)
              (Observe.coordinates props segment) = Throw TypeError
            \/ pathStyle ext props "line" column = Throw TypeError).
Proof.
  induction segs as [|segment rest IH]; intros key; simpl.
  - split; [discriminate|]. intros (sg & [] & _).
  - destruct (renderPath ext props segment column key) as [path|[]] eqn:E;
      simpl.
    + destruct (Spec.emit ext props column (key + 1) rest) as [paths|[]] eqn:E';
        simpl.
      * split; [discriminate|]. intros (sg & [<-|Hin] & H).
        -- apply (renderPath_throw ext props segment column key) in H.
           congruence.
        -- destruct (IH (key + 1)%Z) as [_ IH'].
           assert (Hthrow : Ok paths = Throw TypeError)
             by (rewrite <- E'; apply IH'; eauto).
           discriminate Hthrow.
      * split; [|reflexivity]. intros _.
        destruct (IH (key + 1)%Z) as [IH' _].
        destruct (IH' E') as (sg & Hin & H). eauto.
    + split; [|reflexivity]. intros _. exists segment. split; [now left|].
      now apply (renderPath_throw ext props segment column key).
Qed.

Lemma mapM_throw_iff {A B} (f : A -> result B) (xs : list A) :
  mapM f xs = Throw TypeError
  <-> exists x0, In x0 xs /\ f x0 = Throw TypeError.
Proof.
  induction xs as [|a rest IH]; simpl.
  - split; [discriminate|]. intros (x0 & [] & _).
  - destruct (f a) as [b|[]] eqn:Ea; simpl.
    + destruct (mapM f rest) as [bs|[]]; simpl.
      * split; [discriminate|].
        intros (x0 & [<-|Hin] & Hx); [congruence|].
        destruct IH as [_ IH].
        assert (H : Ok bs = Throw TypeError) by (apply IH; eauto).
        discriminate H.
      * split; [|reflexivity]. intros _.
        destruct IH as [IH _]. destruct (IH eq_refl) as (x0 & Hin & Hx).
        eauto.
    + split; [|reflexivity]. intros _. eauto.
Qed.

(** X5. [renderLine] fails exactly when one of the segments of the column
    cannot be drawn: the path generator throws on it (as it does for an
    interpolation that is no curve) or the path style of the column does
    not resolve.  [render] fails exactly when one of its columns does.  So
    a column goes unchecked as long as breaking leaves it no run of two
    points. *)
Theorem render_fails_iff ext props :
  (forall column,
      renderLine ext props column = Throw TypeError
      <-> exists segment,
          In segment
            (Spec.segments (truthy_bool (breakLine props)) column
               (eventList (series props)))
          /\ (d3_line ext (interpolation props)
                (Observe.coordinates props segment) = Throw TypeError
              \/ pathStyle ext props "line" column = Throw TypeError))
  /\ (render ext props = Throw TypeError
      <-> exists column,
          In column (Observe.columnList props)
          /\ renderLine ext props column = Throw TypeError).
Proof.
  split.
  - intros column. rewrite renderLine_segments. unfold Spec.drawn.
    rewrite <- (emit_throw ext props column _ 1).
    destruct (Spec.emit ext props column 1 _) as [paths|[]]; simpl;
      split; intros H; congruence.
  - unfold render, renderLines, Observe.columnList.
    rewrite <- mapM_throw_iff.
    destruct (mapM (renderLine ext props) _) as [lines|[]]; simpl;
      split; intros H; congruence.
Qed.

(** ** Keys *)

Lemma emit_keys ext props column segs :
  forall (k : nat) paths,
    Spec.emit ext props column (Z.of_nat k) segs = Ok paths ->
    map Observe.key_of paths = Observe.counted k (List.length segs).
Proof.
  unfold Observe.counted.
  induction segs as [|segment rest IH]; intros k paths; simpl.
  - intros H. injection H as <-. reflexivity.
  - unfold renderPath at 1.
    destruct (d3_line ext (interpolation props) _) as [d|e]; simpl;
      [|discriminate].
    destruct (pathStyle ext props "line" column) as [st|e]; simpl;
      [|discriminate].
    replace (Z.of_nat k + 1)%Z with (Z.of_nat (S k)) by lia.
    destruct (Spec.emit ext props column (Z.of_nat (S k)) rest)
      as [more|e] eqn:E; simpl; [|discriminate].
    intros H. injection H as <-. simpl. f_equal. now apply IH.
Qed.

(** X6. When [renderLine] succeeds, it returns a group keyed by the
    column that holds one path per segment, and the paths are keyed
    1, 2, ..., n in order: keys are never reused within a line. *)
Theorem renderLine_keys ext props column line :
  renderLine ext props column = Ok line ->
  exists paths,
    line = Elem "g" (Some (JStr column)) [] paths
    /\ map Observe.key_of paths
       = Observe.counted 1
           (List.length
              (Spec.segments (truthy_bool (breakLine props)) column
                 (eventList (series props)))).
Proof.
  rewrite renderLine_segments. unfold Spec.drawn.
  destruct (Spec.emit ext props column 1 _) as [paths|e] eqn:E; simpl;
    [|discriminate].
  intros H. injection H as <-. exists paths. split; [reflexivity|].
  now apply (emit_keys ext props column _ 1%nat).
Qed.

Lemma renderLine_keys_witness :
  exists line paths,
    renderLine Sample.ext
      (Sample.chart Sample.series_12b45 (Some true) None None) "value"
    = Ok line
    /\ line = Elem "g" (Some (JStr "value")) [] paths
    /\ map Observe.key_of paths
       = [Some (JNum (num 1)); Some (JNum (num 2))].
Proof.
  eexists.
  destruct (renderLine_keys Sample.ext
              (Sample.chart Sample.series_12b45 (Some true) None None)
              "value" eq_refl) as (paths & Hline & Hkeys).
  exists paths. split; [reflexivity|]. split; [exact Hline|exact Hkeys].
Defined.

Lemma mapM_keys ext props (cols : list string) :
  forall lines,
    mapM (renderLine ext props) cols = Ok lines ->
    map Observe.key_of lines = map (fun c => Some (JStr c)) cols.
Proof.
  induction cols as [|c rest IH]; intros lines; simpl.
  - intros H. injection H as <-. reflexivity.
  - destruct (renderLine ext props c) as [line|e] eqn:Eline; simpl;
      [|discriminate].
    destruct (mapM (renderLine ext props) rest) as [more|e]; simpl;
      [|discriminate].
    intros H. injection H as <-. simpl. f_equal; [|now apply IH].
    unfold renderLine in Eline.
    match type of Eline with
    | bind ?m _ = _ => destruct m; simpl in Eline; [|discriminate]
    end.
    injection Eline as <-. reflexivity.
Qed.

(** X7. When [render] succeeds, the outer group holds one line per entry
    of [columns], in the order of [columns] and keyed by the column name;
    a name listed twice is drawn twice, under the same key. *)
Theorem render_lines_by_column ext props tree :
  render ext props = Ok tree ->
  exists lines,
    tree = Elem "g" None [] lines
    /\ map Observe.key_of lines
       = map (fun c => Some (JStr c)) (Observe.columnList props).
Proof.
  unfold render, renderLines, Observe.columnList.
  destruct (mapM (renderLine ext props) _) as [lines|e] eqn:E; simpl;
    [|discriminate].
  intros H. injection H as <-. exists lines. split; [reflexivity|].
  now apply (mapM_keys ext props).
Qed.

Lemma render_lines_by_column_witness :
  exists tree lines,
    render Sample.ext
      (Observe.set_style
         (Some (StyleObject
                  (Sample.object [("value", JObj []); ("other", JObj [])])))
         (Sample.chart Sample.series_12b45 (Some true) None None))
    = Ok tree
    /\ tree = Elem "g" None [] lines
    /\ map Observe.key_of lines
       = [Some (JStr "value"); Some (JStr "other")].
Proof.
  eexists.
  destruct (render_lines_by_column Sample.ext
              (Observe.set_style
                 (Some (StyleObject
                  (Sample.object [("value", JObj []); ("other", JObj [])])))
                 (Sample.chart Sample.series_12b45 (Some true) None None))
              eq_refl) as (lines & Htree & Hkeys).
  exists lines. split; [reflexivity|]. split; [exact Htree|exact Hkeys].
Defined.

Lemma pathStyle_fails_iff_witness :
  pathStyle Sample.ext
    (Observe.set_style None (Sample.chart Sample.series_123 None None None))
    "line" "value"
  = Throw TypeError.
Proof.
  apply (pathStyle_fails_iff Sample.ext
           (Observe.set_style None
              (Sample.chart Sample.series_123 None None None))
           "line" "value").
  left. reflexivity.
Defined.

Lemma render_fails_iff_witness :
  renderLine Sample.ext
    (Sample.chart Sample.series_12b45 (Some true) None None) "other"
  = Throw TypeError
  /\ render Sample.ext
       (Sample.chart Sample.series_12b45 (Some true) None None)
     = Throw TypeError.
Proof.
  destruct (render_fails_iff Sample.ext
              (Sample.chart Sample.series_12b45 (Some true) None None))
    as [Hline Hrender].
  assert (H : renderLine Sample.ext
                (Sample.chart Sample.series_12b45 (Some true) None None)
                "other" = Throw TypeError).
  { apply Hline.
    exists [{| x := 500; y := Sample.n 1 |};
            {| x := 1500; y := Sample.n 2 |}].
    split; [|right; reflexivity].
    vm_compute. left. reflexivity. }
  split; [exact H|].
  apply Hrender. exists "other". split; [|exact H].
  simpl. right. left. reflexivity.
Defined.

(** ** What is drawn *)

Lemma drawable_total (rs : list PointData) :
  (2 * List.length (filter Spec.drawable rs)
   <= List.length (List.concat rs))%nat.
Proof.
  induction rs as [|run rest IH]; simpl; [lia|].
  rewrite length_app.
  destruct (Spec.drawable run) eqn:Erun; simpl; [|lia].
  apply Nat.leb_le in Erun. lia.
Qed.

(** X8. Every point [renderLine] hands to the path generator comes from
    an event of the series whose value for the column is a finite number
    (no null, NaN, infinity or missing value is ever drawn); with
    [breakLine] set every segment holds at least two points, so there are
    at most half as many paths as good points. *)
Theorem drawn_points_good ext props column :
  let breaking := truthy_bool (breakLine props) in
  let events := eventList (series props) in
  let segs := Spec.segments breaking column events in
  renderLine ext props column = Spec.drawn ext props column segs
  /\ (forall segment p,
        In segment segs -> In p segment ->
        isFinite (y p) = true
        /\ exists d,
            In d events /\ badPoint (get d column) = false
            /\ x p = timestamp d /\ y p = get d column)
  /\ (breaking = true ->
      (forall segment, In segment segs -> (2 <= List.length segment)%nat)
      /\ (2 * List.length segs
          <= List.length (filter (fun d => negb (badPoint (get d column)))
                            events))%nat).
Proof.
  cbv zeta. split; [apply renderLine_segments|].
  assert (Hgood : forall p,
    In p (Spec.goodPoints column (eventList (series props))) ->
    isFinite (y p) = true
    /\ exists d, In d (eventList (series props))
                 /\ badPoint (get d column) = false
                 /\ x p = timestamp d /\ y p = get d column).
  { intros p Hp. unfold Spec.goodPoints in Hp.
    apply in_map_iff in Hp. destruct Hp as (d & <- & Hd).
    apply filter_In in Hd. destruct Hd as [Hin Hd].
    rewrite <- badPoint_good in Hd. apply negb_true_iff in Hd.
    split.
    - simpl. unfold badPoint in Hd.
      apply orb_false_iff in Hd. destruct Hd as [_ Hd].
      now apply negb_false_iff in Hd.
    - exists d. repeat split; assumption. }
  split.
  - intros segment p Hseg Hp. apply Hgood.
    unfold Spec.segments in Hseg.
    destruct (truthy_bool (breakLine props)).
    + apply filter_In in Hseg. destruct Hseg as [Hseg _].
      rewrite <- runs_concat. apply in_concat. eauto.
    + destruct Hseg as [<-|[]]. exact Hp.
  - intros ->. unfold Spec.segments. split.
    + intros segment Hseg. apply filter_In in Hseg.
      destruct Hseg as [_ Hseg]. now apply Nat.leb_le in Hseg.
    + etransitivity; [apply drawable_total|].
      rewrite runs_concat. unfold Spec.goodPoints. rewrite length_map.
      apply Nat.eq_le_incl. f_equal.
      apply filter_ext. intros d. symmetry. apply badPoint_good.
Qed.

Lemma drawn_points_good_witness :
  isFinite (JNum (num 4)) = true
  /\ (2 * List.length
           (Spec.segments true "value" (eventList Sample.series_12b45))
      <= 4)%nat.
Proof.
  destruct (drawn_points_good Sample.ext
              (Sample.chart Sample.series_12b45 (Some true) None None)
              "value") as (_ & Hpoints & Hbreaking).
  split.
  - apply (Hpoints [{| x := 3500; y := Sample.n 4 |};
                    {| x := 4500; y := Sample.n 5 |}]
                   {| x := 3500; y := Sample.n 4 |}).
    + simpl. right. left. reflexivity.
    + simpl. left. reflexivity.
  - exact (proj2 (Hbreaking eq_refl)).
Defined.

Lemma runs_split column (before after : list Event) (d : Event) :
  Spec.good column d = false ->
  Spec.runs column (before ++ d :: after)
  = Spec.runs column before ++ Spec.runs column after.
Proof.
  intros Hbad.
  induction before as [|a rest IH]; simpl.
  - now rewrite Hbad.
  - rewrite IH.
    destruct (runs_nonempty column rest) as (run & others & ->).
    destruct (Spec.good column a); reflexivity.
Qed.

(** X9. A bad point cuts the series in two independent halves when
    [breakLine] is set: the line drawn for [before ++ d :: after], with [d]
    bad, holds the segments of [before] followed by those of [after].
    With [breakLine] off the good points of both halves are joined in a
    single segment. *)
Theorem bad_point_splits ext props column before d after :
  eventList (series props) = before ++ d :: after ->
  badPoint (get d column) = true ->
  (truthy_bool (breakLine props) = true ->
   renderLine ext props column
   = Spec.drawn ext props column
       (Spec.segments true column before ++ Spec.segments true column after))
  /\ (truthy_bool (breakLine props) = false ->
      renderLine ext props column
      = Spec.drawn ext props column
          [Spec.goodPoints column before ++ Spec.goodPoints column after]).
Proof.
  intros Hevents Hbad.
  assert (Hd : Spec.good column d = false).
  { rewrite <- badPoint_good. now rewrite Hbad. }
  split; intros Hbreak; rewrite renderLine_segments, Hbreak, Hevents;
    unfold Spec.segments.
  - now rewrite (runs_split column before after d Hd), filter_app.
  - unfold Spec.goodPoints. rewrite filter_app. simpl. rewrite Hd.
    now rewrite map_app.
Qed.

Lemma bad_point_splits_witness :
  renderLine Sample.ext
    (Sample.chart Sample.series_12b45 (Some true) None None) "value"
  = Spec.drawn Sample.ext
      (Sample.chart Sample.series_12b45 (Some true) None None) "value"
      (Spec.segments true "value" [Sample.event 0 (Sample.n 1);
                                    Sample.event 1 (Sample.n 2)]
       ++ Spec.segments true "value" [Sample.event 3 (Sample.n 4);
                                       Sample.event 4 (Sample.n 5)]).
Proof.
  apply (bad_point_splits Sample.ext
           (Sample.chart Sample.series_12b45 (Some true) None None) "value"
           [Sample.event 0 (Sample.n 1); Sample.event 1 (Sample.n 2)]
           (Sample.event 2 JNull)
           [Sample.event 3 (Sample.n 4); Sample.event 4 (Sample.n 5)]);
    reflexivity.
Defined.

(** ** The position of a point in time *)

(** X10. The x of a point lies within the interval of its event: for an
    event that does not end before it begins, begin <= x <= end (and so
    x is the instant itself when the two coincide). *)
Theorem timestamp_within_interval (d : Event) :
  (begin_getTime d <= end_getTime d)%Z ->
  (begin_getTime d <= timestamp d <= end_getTime d)%Z.
Proof.
  intros Horder. unfold timestamp, Date_new.
  set (b := begin_getTime d) in *. set (e := end_getTime d) in *.
  set (t := (inject_Z b + (inject_Z e - inject_Z b) / 2)%Q).
  assert (Hq : (inject_Z b <= inject_Z e)%Q) by now rewrite <- Zle_Qle.
  assert (Ht : (t == inject_Z b + (inject_Z e - inject_Z b) * (1 # 2))%Q)
    by (unfold t; field).
  clearbody t.
  assert (Hlow : (inject_Z b <= t)%Q) by lra.
  assert (Hhigh : (t <= inject_Z e)%Q) by lra.
  destruct (Qle_bool 0 t).
  - split.
    + rewrite <- (Qfloor_Z b). now apply Qfloor_resp_le.
    + rewrite <- (Qfloor_Z e). now apply Qfloor_resp_le.
  - split.
    + rewrite <- (Qceiling_Z b). now apply Qceiling_resp_le.
    + rewrite <- (Qceiling_Z e). now apply Qceiling_resp_le.
Qed.

Lemma timestamp_within_interval_witness :
  (3000 <= timestamp (Sample.event 3 (Sample.n 4)) <= 4000)%Z.
Proof.
  apply (timestamp_within_interval (Sample.event 3 (Sample.n 4))).
  simpl. lia.
Defined.

(** ** Re-render suppression, completed *)

Lemma str_strict_eq_true (a b : option string) :
  str_strict_eq a b = true -> a = b.
Proof.
  destruct a, b; simpl; intros H; try discriminate; [|reflexivity].
  apply String.eqb_eq in H. now subst.
Qed.

Lemma ref_strict_eq_true (a b : option StringArray) :
  ref_strict_eq a b = true -> option_map array_id a = option_map array_id b.
Proof.
  destruct a, b; simpl; intros H; try discriminate; [|reflexivity].
  apply Nat.eqb_eq in H. now rewrite H.
Qed.

(** X11. [shouldComponentUpdate] returns false only when every tracked
    prop is unchanged, and in every such case: it never suppresses an
    update after a change of width, series size, series content (as
    [TimeSeries.is] sees it), printed time scale, value-scale object,
    interpolation, highlight, selection or columns array.  In particular a
    new columns array with the same names asks for an update. *)
Theorem shouldComponentUpdate_false_iff ext prev next :
  shouldComponentUpdate ext prev next = false
  <-> ((width prev == width next)%Q
       /\ size (series prev) = size (series next)
       /\ TimeSeries_is ext (series prev) (series next) = true
       /\ scaleAsString ext (timeScale prev)
          = scaleAsString ext (timeScale next)
       /\ scale_id (yScale prev) = scale_id (yScale next)
       /\ interpolation prev = interpolation next
       /\ highlight prev = highlight next
       /\ selection prev = selection next
       /\ option_map array_id (columns prev)
          = option_map array_id (columns next)).
Proof.
  split.
  - unfold shouldComponentUpdate. intros H.
    repeat (apply orb_false_iff in H; destruct H as [H ?]).
    repeat match goal with
           | H : negb _ = false |- _ => apply negb_false_iff in H
           end.
    destruct (Nat.eqb (size (series prev)) (size (series next))) eqn:Hsize;
      simpl in *; [|discriminate].
    repeat match goal with
           | H : negb _ = false |- _ => apply negb_false_iff in H
           end.
    repeat split.
    + now apply Qeq_bool_iff.
    + now apply Nat.eqb_eq.
    + assumption.
    + now apply String.eqb_eq.
    + now apply Nat.eqb_eq.
    + now apply str_strict_eq_true.
    + now apply str_strict_eq_true.
    + now apply str_strict_eq_true.
    + now apply ref_strict_eq_true.
  - intros (Hw & Hsize & His & Htime & Hy & Hi & Hh & Hs & Hc).
    now apply shouldComponentUpdate_unchanged.
Qed.

Lemma shouldComponentUpdate_false_iff_witness :
  shouldComponentUpdate Sample.ext
    (Sample.chart Sample.series_123 (Some true) None None)
    (Sample.otherwise (Sample.chart Sample.series_123 (Some true) None None))
  = false.
Proof.
  apply (shouldComponentUpdate_false_iff Sample.ext
           (Sample.chart Sample.series_123 (Some true) None None)
           (Sample.otherwise
              (Sample.chart Sample.series_123 (Some true) None None))).
  repeat split.
Defined.

(* ================================================================== *)
(** * Further properties of LabelAxis *)

Import LabelAxis.

(** X12. With auxiliary values (any truthy [values], the default empty
    list included) and a finite height, the title sits on a whole pixel,
    never above 10: at 10 for every height under 42, and at
    round(height/4), which is then at least 11, from 42 on. *)
Theorem title_floor ext props (h : Q) :
  truthy (values props) = true ->
  height props = Some (Finite h) ->
  exists z : Z,
    Tree.titleY (LabelAxis.render ext props) = Some (PVal (JNum (num z)))
    /\ (10 <= z)%Z
    /\ ((h < 42)%Q -> z = 10%Z)
    /\ ((42 <= h)%Q -> z = Qfloor (h / 4 + (1 # 2))%Q /\ (11 <= z)%Z).
Proof.
  intros Hvalues Hheight.
  set (r := Qfloor (h / 4 + (1 # 2))%Q).
  assert (Hlow : (inject_Z r <= h / 4 + (1 # 2))%Q) by apply Qfloor_le.
  assert (Hhigh : (h / 4 + (1 # 2) < inject_Z (r + 1))%Q)
    by apply Qlt_floor.
  rewrite inject_Z_plus in Hhigh.
  assert (Hquarter : (h / 4 == h * (1 # 4))%Q) by field.
  rewrite Hquarter in Hlow, Hhigh.
  assert (Hy : Tree.titleY (LabelAxis.render ext props)
               = Some (PVal (JNum (if Qle_bool (inject_Z r) (inject_Z 10)
                                   then num 10 else num r)))).
  { unfold LabelAxis.render, Tree.titleY. rewrite Hvalues, Hheight.
    reflexivity. }
  destruct (Qle_bool (inject_Z r) (inject_Z 10)) eqn:Hcmp.
  - apply Qle_bool_iff in Hcmp.
    exists 10%Z. split; [exact Hy|]. split; [lia|]. split; [reflexivity|].
    intros Hh. exfalso.
    change (inject_Z 10) with 10%Q in Hcmp.
    change (inject_Z 1) with 1%Q in Hhigh. lra.
  - assert (Hr : ~ (r <= 10)%Z).
    { intros Hle. rewrite Zle_Qle in Hle. apply Qle_bool_iff in Hle.
      congruence. }
    exists r. split; [exact Hy|]. split; [lia|]. split.
    + intros Hh. exfalso.
      assert (Hr' : (inject_Z 11 <= inject_Z r)%Q)
        by (rewrite <- Zle_Qle; lia).
      change (inject_Z 11) with 11%Q in Hr'. lra.
    + intros _. split; [reflexivity|lia].
Qed.

Lemma title_floor_witness :
  exists z : Z,
    Tree.titleY
      (LabelAxis.render Sample.axisExt (Sample.labelAxis (JArr []) None))
    = Some (PVal (JNum (num z)))
    /\ (10 <= z)%Z.
Proof.
  destruct (title_floor Sample.axisExt (Sample.labelAxis (JArr []) None)
              (h := inject_Z 100) eq_refl eq_refl) as (z & Hy & Hz & _).
  exists z. split; [exact Hy|exact Hz].
Defined.
